(** * Secret rotation handler (terraform/modules/secrets/rotation.py)

    A shallow embedding of the Lambda handler that rotates a secret in
    AWS Secrets Manager, and of its helpers: the three random generators
    and the length-based validator.

    Python values are embedded as the inductive [value]; dictionaries are
    finite maps.  A Python [str] is held as the bytes of its UTF-8 encoding,
    so its length is the number of characters encoded, not the number of
    bytes ([str_len]).  Exceptions are explicit: a computation returns either a
    raised exception or a result, next to the state it leaves behind, so
    what has been written to the store before a fault stays written.
    Calls to [logger] only feed the log stream: [lambda_handler] and
    [validate_secret] are given without them, and [lambda_handler_logged]
    and [validate_secret_logged] with them. *)

From Stdlib Require Import String Ascii ZArith List Lia DecimalString.
From Stdlib Require Import Floats.SpecFloat.
From stdpp Require Import base option gmap strings list fin_maps.
Import ListNotations.
Local Open Scope string_scope.

(** ** Python values *)

(** The values [json.loads] can produce, which are also the ones
    [validate_secret] may be handed. *)
#[warnings="-register-all"]
Inductive value : Type :=
| VNone
| VBool (b : bool)
| VInt (z : Z)
| VFloat (f : spec_float)
| VStr (s : string)
| VList (l : list value)
| VDict (d : gmap string value).

(** Exceptions: the class name and the text [str(e)] gives. *)
Record exn : Type := Exn { exn_class : string; exn_str : string }.

Definition result (A : Type) : Type := (exn + A)%type.

(** [type(v).__name__] *)
Definition type_name (v : value) : string :=
  match v with
  | VNone => "NoneType"
  | VBool _ => "bool"
  | VInt _ => "int"
  | VFloat _ => "float"
  | VStr _ => "str"
  | VList _ => "list"
  | VDict _ => "dict"
  end.

Definition KeyError (key : string) : exn :=
  Exn "KeyError" ("'" ++ key ++ "'").

Definition AttributeError (v : value) (attr : string) : exn :=
  Exn "AttributeError"
      ("'" ++ type_name v ++ "' object has no attribute '" ++ attr ++ "'").

Definition TypeError_len (v : value) : exn :=
  Exn "TypeError" ("object of type '" ++ type_name v ++ "' has no len()").

Definition IndexError_choice : exn :=
  Exn "IndexError" "Cannot choose from an empty sequence".

(** Truth value of an object, as [not x] and [if x] test it. *)
Definition truthy (v : value) : bool :=
  match v with
  | VNone => false
  | VBool b => b
  | VInt z => negb (z =? 0)%Z
  | VFloat (S754_zero _) => false
  | VFloat _ => true
  | VStr s => negb (String.eqb s "")
  | VList l => match l with [] => false | _ => true end
  | VDict d => negb (bool_decide (d = ∅))
  end.

(** A byte that continues a character of a UTF-8 text: [10xxxxxx]. *)
Definition utf8_continuation (c : ascii) : bool :=
  Nat.leb 128 (nat_of_ascii c) && Nat.ltb (nat_of_ascii c) 192.

(** [len(s)] for a [str]: every character has one byte that is not a
    continuation byte. *)
Fixpoint str_len (s : string) : nat :=
  match s with
  | EmptyString => 0
  | String c rest =>
      (if utf8_continuation c then 0 else 1) + str_len rest
  end.

(** [len(v)]: defined on strings, lists and dicts, a [TypeError] on the rest. *)
Definition py_len (v : value) : result nat :=
  match v with
  | VStr s => inr (str_len s)
  | VList l => inr (List.length l)
  | VDict d => inr (size d)
  | _ => inl (TypeError_len v)
  end.

(** [o.get(key)] and [o.get(key, default)]: only dicts have the method. *)
Definition py_get (o : value) (key : string) (default : value) : result value :=
  match o with
  | VDict d => inr (match d !! key with Some v => v | None => default end)
  | _ => inl (AttributeError o "get")
  end.

(** [o[key]] for a string key.  On a dict a missing key is a [KeyError];
    any other value of this embedding refuses a string subscript. *)
Definition py_getitem (o : value) (key : string) : result value :=
  match o with
  | VDict d => match d !! key with Some v => inr v | None => inl (KeyError key) end
  | VStr _ => inl (Exn "TypeError" "string indices must be integers, not 'str'")
  | VList _ => inl (Exn "TypeError" "list indices must be integers or slices, not str")
  | _ => inl (Exn "TypeError" ("'" ++ type_name o ++ "' object is not subscriptable"))
  end.

(** ** validate_secret *)

(** One of the three guards of [validate_secret]:
    [not secret.get(key) or len(secret[key]) < bound]. *)
Definition field_too_short (secret : value) (key : string) (bound : nat)
  : result bool :=
  match py_get secret key VNone with
  | inl e => inl e
  | inr got =>
      if negb (truthy got) then inr true
      else
        match py_getitem secret key with
        | inl e => inl e
        | inr item =>
            match py_len item with
            | inl e => inl e
            | inr n => inr (Nat.ltb n bound)
            end
        end
  end.

(** The body of the [try] of [validate_secret]. *)
Definition validate_secret_try (secret : value) : result bool :=
  match field_too_short secret "password" 8 with
  | inl e => inl e
  | inr true => inr false
  | inr false =>
      match field_too_short secret "token" 16 with
      | inl e => inl e
      | inr true => inr false
      | inr false =>
          match field_too_short secret "api_key" 16 with
          | inl e => inl e
          | inr true => inr false
          | inr false => inr true
          end
      end
  end.

(** [validate_secret]: any exception of the body is caught and gives [False]. *)
Definition validate_secret (secret : value) : bool :=
  match validate_secret_try secret with
  | inl _ => false
  | inr b => b
  end.

(** ** State and exceptions *)

(** A computation over a state [St] that may raise: it returns the
    exception or the result, and the state reached in either case. *)
Definition M (St A : Type) : Type := St -> result A * St.

Definition ret {St A} (a : A) : M St A := fun s => (inr a, s).

Definition raise {St A} (e : exn) : M St A := fun s => (inl e, s).

Definition bind {St A B} (m : M St A) (k : A -> M St B) : M St B :=
  fun s =>
    match m s with
    | (inl e, s') => (inl e, s')
    | (inr a, s') => k a s'
    end.

(** [try: m except Exception as e: h e] *)
Definition try_except {St A} (m : M St A) (h : exn -> M St A) : M St A :=
  fun s =>
    match m s with
    | (inl e, s') => h e s'
    | (inr a, s') => (inr a, s')
    end.

Definition of_result {St A} (r : result A) : M St A :=
  fun s => (r, s).

Notation "x <- m ;; k" := (bind m (fun x => k))
  (at level 100, m at next level, right associativity).

(** ** The random source *)

(** [random.Random]: the one primitive [random.choice] relies on is
    [_randbelow(n)], an integer in [range(n)]. *)
Class RandomSource (rng : Type) : Type := {
  randbelow : nat -> rng -> nat * rng;
  randbelow_lt : forall n g, 0 < n -> fst (randbelow n g) < n
}.

(** [string.ascii_letters], [string.digits] *)
Definition ascii_lowercase : string := "abcdefghijklmnopqrstuvwxyz".
Definition ascii_uppercase : string := "ABCDEFGHIJKLMNOPQRSTUVWXYZ".
Definition ascii_letters : string := ascii_lowercase ++ ascii_uppercase.
Definition digits : string := "0123456789".

Section Generators.
Context {rng : Type} `{RandomSource rng}.

(** [random.choice(seq)] on a string: [seq[_randbelow(len(seq))]], an
    [IndexError] on the empty string.  The strings chosen from are the
    ASCII alphabets below, where bytes and characters are the same. *)
Definition choice (seq : string) : M rng ascii :=
  fun g =>
    if Nat.eqb (String.length seq) 0 then (inl IndexError_choice, g)
    else
      let '(i, g') := randbelow (String.length seq) g in
      match String.get i seq with
      | Some c => (inr c, g')
      | None => (inl (Exn "IndexError" "string index out of range"), g')
      end.

(** [''.join(random.choice(characters) for _ in range(n))] *)
Fixpoint join_choices (characters : string) (n : nat) : M rng string :=
  match n with
  | O => ret ""
  | S n' =>
      c <- choice characters ;;
      rest <- join_choices characters n' ;;
      ret (String c rest)
  end.

(** [range(length)] is empty for a negative [length]. *)
Definition generate_password (length : Z) : M rng string :=
  let characters := ascii_letters ++ digits ++ "!@#$%^&*" in
  join_choices characters (Z.to_nat length).

Definition generate_token (length : Z) : M rng string :=
  let characters := ascii_letters ++ digits in
  join_choices characters (Z.to_nat length).

Definition generate_api_key (length : Z) : M rng string :=
  let characters := ascii_letters ++ digits in
  join_choices characters (Z.to_nat length).
End Generators.

(** ** The Secrets Manager client and the JSON codec *)

(** The keys of the responses that the handler reads.  A secret stored as
    binary has no [SecretString]. *)
Record GetSecretValueResponse : Type := {
  SecretString : option string;
  VersionId : string
}.

Record PutSecretValueResponse : Type := { put_VersionId : string }.

(** The three operations of [boto3.client('secretsmanager')] the handler
    uses, over the state of the service.  Reading leaves the service as it
    is; the two writes return the state they leave, also when they raise. *)
Class SecretsManager (store : Type) : Type := {
  get_secret_value : string -> store -> result GetSecretValueResponse;
  put_secret_value :
    string -> string -> list string -> store ->
    result PutSecretValueResponse * store;
  update_secret_version_stage :
    string -> string -> string -> string -> store -> result unit * store
}.

(** [json.loads] and [json.dumps] *)
Class Json : Type := {
  json_loads : string -> result value;
  json_dumps : value -> string
}.

(** [boto3.client(service_name)]: building the client is decided by the
    configuration of the process, here its environment, and can raise
    (no region configured, unknown service). *)
Class Boto3 : Type := {
  boto3_client : string -> gmap string string -> result unit
}.

(** The requests sent to the service, with their keyword arguments. *)
Inductive call : Type :=
| GetSecretValue (SecretId : string)
| PutSecretValue (SecretId SecretString : string) (VersionStages : list string)
| UpdateSecretVersionStage
    (SecretId VersionStage MoveToVersionId RemoveFromVersionId : string).

(** What the handler returns to the Lambda runtime. *)
Record http_response : Type := { statusCode : Z; body : string }.

Section Handler.
Context {store rng : Type}.
Context `{SecretsManager store} `{RandomSource rng} `{Json} `{Boto3}.

(** What an invocation acts on: the service, the random source, and the
    requests sent so far, oldest first. *)
Record World : Type := {
  w_store : store;
  w_rng : rng;
  w_calls : list call
}.

Definition sent (c : call) (w : World) : World :=
  {| w_store := w_store w; w_rng := w_rng w; w_calls := w_calls w ++ [c] |}.

Definition with_store (s : store) (w : World) : World :=
  {| w_store := s; w_rng := w_rng w; w_calls := w_calls w |}.

Definition with_rng (g : rng) (w : World) : World :=
  {| w_store := w_store w; w_rng := g; w_calls := w_calls w |}.

(** A generator run inside an invocation. *)
Definition random {A} (m : M rng A) : M World A :=
  fun w => let '(r, g) := m (w_rng w) in (r, with_rng g w).

Definition client_get_secret_value (SecretId : string)
  : M World GetSecretValueResponse :=
  fun w =>
    let w1 := sent (GetSecretValue SecretId) w in
    (get_secret_value SecretId (w_store w1), w1).

Definition client_put_secret_value
    (SecretId SecretString : string) (VersionStages : list string)
  : M World PutSecretValueResponse :=
  fun w =>
    let w1 := sent (PutSecretValue SecretId SecretString VersionStages) w in
    let '(r, s) :=
      put_secret_value SecretId SecretString VersionStages (w_store w1) in
    (r, with_store s w1).

Definition client_update_secret_version_stage
    (SecretId VersionStage MoveToVersionId RemoveFromVersionId : string)
  : M World unit :=
  fun w =>
    let w1 :=
      sent (UpdateSecretVersionStage SecretId VersionStage
              MoveToVersionId RemoveFromVersionId) w in
    let '(r, s) :=
      update_secret_version_stage SecretId VersionStage
        MoveToVersionId RemoveFromVersionId (w_store w1) in
    (r, with_store s w1).

(** [response['SecretString']] *)
Definition response_SecretString (response : GetSecretValueResponse)
  : result string :=
  match SecretString response with
  | Some s => inr s
  | None => inl (KeyError "SecretString")
  end.

(** The dict literal bound to [new_secret]. *)
Definition new_secret_dict (username : value)
    (new_password new_token new_api_key : string) : value :=
  VDict (<["username" := username]>
         (<["password" := VStr new_password]>
          (<["token" := VStr new_token]>
           (<["api_key" := VStr new_api_key]> ∅)))).

(** The body of the [try] of [lambda_handler], with the three generators
    it calls as parameters: they are module globals, looked up when the
    handler runs, which is how a test replaces one of them. *)
Definition lambda_handler_try_with
    (gen_password gen_token gen_api_key : Z -> M rng string)
    (secret_arn : string) : M World http_response :=
  response <- client_get_secret_value secret_arn ;;
  secret_string <- of_result (response_SecretString response) ;;
  current_secret <- of_result (json_loads secret_string) ;;
  new_password <- random (gen_password 32%Z) ;;
  new_token <- random (gen_token 64%Z) ;;
  new_api_key <- random (gen_api_key 48%Z) ;;
  username <- of_result (py_get current_secret "username" (VStr "podinfo-user")) ;;
  let new_secret :=
    new_secret_dict username new_password new_token new_api_key in
  _ <- client_put_secret_value secret_arn (json_dumps new_secret)
         ["AWSPENDING"] ;;
  if validate_secret new_secret then
    _ <- client_update_secret_version_stage secret_arn "AWSCURRENT"
           (VersionId response) (VersionId response) ;;
    ret {| statusCode := 200%Z;
           body := json_dumps (VStr "Secret rotation completed successfully") |}
  else
    ret {| statusCode := 500%Z;
           body := json_dumps (VStr "Secret validation failed") |}.

(** [except Exception as e] *)
Definition lambda_handler_except (e : exn) : M World http_response :=
  ret {| statusCode := 500%Z;
         body := json_dumps
                   (VStr ("Error during secret rotation: " ++ exn_str e)) |}.

(** [lambda_handler(event, context)] under an injected set of helpers.
    [os.environ['SECRET_ARN']] is read and the client is built before the
    [try]: what they raise is not caught. *)
Definition lambda_handler_with
    (gen_password gen_token gen_api_key : Z -> M rng string)
    (environ : gmap string string) (event context : value)
  : M World http_response :=
  match environ !! "SECRET_ARN" with
  | None => raise (KeyError "SECRET_ARN")
  | Some secret_arn =>
      match boto3_client "secretsmanager" environ with
      | inl e => raise e
      | inr _ =>
          try_except
            (lambda_handler_try_with gen_password gen_token gen_api_key
               secret_arn)
            lambda_handler_except
      end
  end.

(** The handler as the module defines it. *)
Definition lambda_handler_try : string -> M World http_response :=
  lambda_handler_try_with generate_password generate_token generate_api_key.

Definition lambda_handler
  : gmap string string -> value -> value -> M World http_response :=
  lambda_handler_with generate_password generate_token generate_api_key.
End Handler.

Arguments World : clear implicits.

(** ** Vocabulary of the statements *)

(** The character classes the specification names. *)
Definition upper_letter (c : ascii) : bool :=
  Nat.leb 65 (nat_of_ascii c) && Nat.leb (nat_of_ascii c) 90.

Definition lower_letter (c : ascii) : bool :=
  Nat.leb 97 (nat_of_ascii c) && Nat.leb (nat_of_ascii c) 122.

Definition digit_char (c : ascii) : bool :=
  Nat.leb 48 (nat_of_ascii c) && Nat.leb (nat_of_ascii c) 57.

Definition password_symbol (c : ascii) : bool :=
  existsb (Ascii.eqb c) (list_ascii_of_string "!@#$%^&*").

(** Alphabet of a password: upper and lower letters, digits, and the
    symbols [!@#$%^&*]. *)
Definition password_alphabet (c : ascii) : bool :=
  upper_letter c || lower_letter c || digit_char c || password_symbol c.

(** Alphabet of a token and of an API key: upper and lower letters and digits. *)
Definition alnum_alphabet (c : ascii) : bool :=
  upper_letter c || lower_letter c || digit_char c.

Definition drawn_from (alphabet : ascii -> bool) (s : string) : Prop :=
  Forall (fun c => alphabet c = true) (list_ascii_of_string s).

(** [n] draws below [bound] from the random source, one after the other,
    and the state the source is left in. *)
Fixpoint draws {rng : Type} `{RandomSource rng} (n bound : nat) (g : rng)
  : list nat * rng :=
  match n with
  | O => ([], g)
  | S n' =>
      let '(i, g1) := randbelow bound g in
      let '(rest, g2) := draws n' bound g1 in
      (i :: rest, g2)
  end.

(** The string [s] is made of the characters of [alphabet] at the given
    positions, in order. *)
Definition made_of (alphabet : string) (positions : list nat) (s : string)
  : Prop :=
  List.map (fun i => String.get i alphabet) positions
  = List.map Some (list_ascii_of_string s).

(** [s] is fresh random material of [n] characters over [alphabet]: its
    characters are those at [n] successive draws below the size of the
    alphabet, which take the random source from [g] to [g']. *)
Definition freshly_drawn {rng : Type} `{RandomSource rng}
    (alphabet : string) (n : nat) (g : rng) (s : string) (g' : rng) : Prop :=
  made_of alphabet (fst (draws n (String.length alphabet) g)) s
  /\ g' = snd (draws n (String.length alphabet) g).

Definition is_stage_update (c : call) : bool :=
  match c with
  | UpdateSecretVersionStage _ _ _ _ => true
  | _ => false
  end.

Definition occurs_in (c : ascii) (s : string) : bool :=
  existsb (Ascii.eqb c) (list_ascii_of_string s).

(** A bundle has the field [key] with a length of at least [bound]. *)
Definition field_at_least (bundle : value) (key : string) (bound : nat) : Prop :=
  exists d v n,
    bundle = VDict d /\ d !! key = Some v /\ py_len v = inr n /\ bound <= n.

(** A bundle lacks the field [key], or holds an empty value there: one
    that is false in a boolean context. *)
Definition field_missing_or_empty (bundle : value) (key : string) : Prop :=
  exists d,
    bundle = VDict d /\
    match d !! key with Some v => truthy v = false | None => True end.

(** A bundle has the field [key], holding a non-empty string. *)
Definition field_nonempty (bundle : value) (key : string) : bool :=
  match bundle with
  | VDict d =>
      match d !! key with
      | Some (VStr s) => negb (String.eqb s "")
      | _ => false
      end
  | _ => false
  end.

Definition all_fields_nonempty (bundle : value) : bool :=
  forallb (field_nonempty bundle) ["username"; "password"; "token"; "api_key"].

(** The requests one invocation may send: the read, then the pending
    write, then the stage update, each at most once and nothing else. *)
Definition rotation_requests (secret_arn : string) (l : list call) : Prop :=
  l = [GetSecretValue secret_arn]
  \/ (exists payload,
        l = [GetSecretValue secret_arn;
             PutSecretValue secret_arn payload ["AWSPENDING"]])
  \/ (exists payload move_to remove_from,
        l = [GetSecretValue secret_arn;
             PutSecretValue secret_arn payload ["AWSPENDING"];
             UpdateSecretVersionStage secret_arn "AWSCURRENT"
               move_to remove_from]).

Definition error_response `{Json} (e : exn) : http_response :=
  {| statusCode := 500%Z;
     body := json_dumps (VStr ("Error during secret rotation: " ++ exn_str e)) |}.

Definition success_response `{Json} : http_response :=
  {| statusCode := 200%Z;
     body := json_dumps (VStr "Secret rotation completed successfully") |}.

(** ** The outcomes of the [try] block *)

Section Outcomes.
Context {store rng : Type}.
Context `{SecretsManager store} `{RandomSource rng} `{Json}.

(** The first steps went through: the read returned [response], its
    [SecretString] parsed to [current_secret], and the three generators
    returned [p], [t] and [k], leaving the random source in [g]. *)
Definition prepared (secret_arn : string) (w : World store rng)
    (response : GetSecretValueResponse) (current_secret : value)
    (p t k : string) (g : rng) : Prop :=
  exists text g1 g2,
    get_secret_value secret_arn (w_store w) = inr response
    /\ SecretString response = Some text
    /\ json_loads text = inr current_secret
    /\ generate_password 32%Z (w_rng w) = (inr p, g1)
    /\ generate_token 64%Z g1 = (inr t, g2)
    /\ generate_api_key 48%Z g2 = (inr k, g).

(** The pending write went through: the first steps did, the current
    secret is a dict, and [put_secret_value] returned. *)
Definition pending_written (secret_arn : string) (w : World store rng)
  : Prop :=
  exists response current_secret p t k g username written st,
    prepared secret_arn w response current_secret p t k g
    /\ py_get current_secret "username" (VStr "podinfo-user") = inr username
    /\ put_secret_value secret_arn
         (json_dumps (new_secret_dict username p t k)) ["AWSPENDING"]
         (w_store w) = (inr written, st).

(** The state an invocation leaves: the service in [st], the random source
    in [g], and [requests] sent after those of [w]. *)
Definition left_with (w : World store rng) (st : store) (g : rng)
    (requests : list call) : World store rng :=
  {| w_store := st; w_rng := g; w_calls := w_calls w ++ requests |}.

(** Every way the [try] block of [lambda_handler] can end, with the
    exception raised or the response returned and the state left. *)
Inductive rotation_run (secret_arn : string) (w : World store rng)
  : result http_response * World store rng -> Prop :=
| run_read_failed e :
    get_secret_value secret_arn (w_store w) = inl e ->
    rotation_run secret_arn w
      (inl e, left_with w (w_store w) (w_rng w) [GetSecretValue secret_arn])
| run_no_secret_string response :
    get_secret_value secret_arn (w_store w) = inr response ->
    SecretString response = None ->
    rotation_run secret_arn w
      (inl (KeyError "SecretString"),
       left_with w (w_store w) (w_rng w) [GetSecretValue secret_arn])
| run_not_json response text e :
    get_secret_value secret_arn (w_store w) = inr response ->
    SecretString response = Some text ->
    json_loads text = inl e ->
    rotation_run secret_arn w
      (inl e, left_with w (w_store w) (w_rng w) [GetSecretValue secret_arn])
| run_not_a_dict response current_secret p t k g e :
    prepared secret_arn w response current_secret p t k g ->
    py_get current_secret "username" (VStr "podinfo-user") = inl e ->
    rotation_run secret_arn w
      (inl e, left_with w (w_store w) g [GetSecretValue secret_arn])
| run_write_failed response current_secret p t k g username e st :
    prepared secret_arn w response current_secret p t k g ->
    py_get current_secret "username" (VStr "podinfo-user") = inr username ->
    put_secret_value secret_arn
      (json_dumps (new_secret_dict username p t k)) ["AWSPENDING"] (w_store w)
    = (inl e, st) ->
    rotation_run secret_arn w
      (inl e,
       left_with w st g
         [GetSecretValue secret_arn;
          PutSecretValue secret_arn
            (json_dumps (new_secret_dict username p t k)) ["AWSPENDING"]])
| run_promote_failed response current_secret p t k g username written st e st' :
    prepared secret_arn w response current_secret p t k g ->
    py_get current_secret "username" (VStr "podinfo-user") = inr username ->
    put_secret_value secret_arn
      (json_dumps (new_secret_dict username p t k)) ["AWSPENDING"] (w_store w)
    = (inr written, st) ->
    update_secret_version_stage secret_arn "AWSCURRENT"
      (VersionId response) (VersionId response) st = (inl e, st') ->
    rotation_run secret_arn w
      (inl e,
       left_with w st' g
         [GetSecretValue secret_arn;
          PutSecretValue secret_arn
            (json_dumps (new_secret_dict username p t k)) ["AWSPENDING"];
          UpdateSecretVersionStage secret_arn "AWSCURRENT"
            (VersionId response) (VersionId response)])
| run_rotated response current_secret p t k g username written st st' :
    prepared secret_arn w response current_secret p t k g ->
    py_get current_secret "username" (VStr "podinfo-user") = inr username ->
    put_secret_value secret_arn
      (json_dumps (new_secret_dict username p t k)) ["AWSPENDING"] (w_store w)
    = (inr written, st) ->
    update_secret_version_stage secret_arn "AWSCURRENT"
      (VersionId response) (VersionId response) st = (inr tt, st') ->
    rotation_run secret_arn w
      (inr success_response,
       left_with w st' g
         [GetSecretValue secret_arn;
          PutSecretValue secret_arn
            (json_dumps (new_secret_dict username p t k)) ["AWSPENDING"];
          UpdateSecretVersionStage secret_arn "AWSCURRENT"
            (VersionId response) (VersionId response)]).
End Outcomes.

(** ** Stand-ins for running the handler on concrete inputs *)

(** A counter as random source: the draw below [n] is the counter modulo [n]. *)
#[export] Instance counter_source : RandomSource nat := {|
  randbelow n g := (g mod n, S g);
  randbelow_lt n g (Hn : 0 < n) :=
    Nat.mod_upper_bound g n
      (fun E : n = 0 => Nat.lt_irrefl 0 (eq_ind n (fun k => 0 < k) Hn 0 E))
|}.

(** A service holding the versions of one secret, each with its staging
    labels.  Writing a version with some labels takes them from the other
    versions; a stage update takes the label from one version and gives it
    to another. *)
Record version : Type := {
  v_id : string;
  v_secret : string;
  v_stages : list string
}.

Record MemStore : Type := {
  ms_arn : string;
  ms_versions : list version;
  ms_minted : nat
}.

Definition ResourceNotFound : exn :=
  Exn "ResourceNotFoundException"
      "An error occurred (ResourceNotFoundException) when calling the operation: Secrets Manager can't find the specified secret.".

Definition has_stage (stage : string) (v : version) : bool :=
  existsb (String.eqb stage) (v_stages v).

Definition without_stages (stages : list string) (v : version) : version :=
  {| v_id := v_id v;
     v_secret := v_secret v;
     v_stages :=
       List.filter (fun s => negb (existsb (String.eqb s) stages)) (v_stages v) |}.

Definition with_stage (stage : string) (v : version) : version :=
  if has_stage stage v then v
  else {| v_id := v_id v; v_secret := v_secret v;
          v_stages := v_stages v ++ [stage] |}.

Definition mem_get (SecretId : string) (st : MemStore)
  : result GetSecretValueResponse :=
  if negb (String.eqb SecretId (ms_arn st)) then inl ResourceNotFound
  else
    match List.find (has_stage "AWSCURRENT") (ms_versions st) with
    | Some v => inr {| SecretString := Some (v_secret v); VersionId := v_id v |}
    | None => inl ResourceNotFound
    end.

Definition mem_put (SecretId SecretString : string) (VersionStages : list string)
    (st : MemStore) : result PutSecretValueResponse * MemStore :=
  if negb (String.eqb SecretId (ms_arn st)) then (inl ResourceNotFound, st)
  else
    let id := "v" ++ NilEmpty.string_of_uint (Nat.to_uint (S (ms_minted st))) in
    (inr {| put_VersionId := id |},
     {| ms_arn := ms_arn st;
        ms_versions :=
          List.map (without_stages VersionStages) (ms_versions st)
          ++ [{| v_id := id; v_secret := SecretString;
                 v_stages := VersionStages |}];
        ms_minted := S (ms_minted st) |}).

Definition mem_update (SecretId VersionStage MoveToVersionId RemoveFromVersionId : string)
    (st : MemStore) : result unit * MemStore :=
  if negb (String.eqb SecretId (ms_arn st)) then (inl ResourceNotFound, st)
  else
    (inr tt,
     {| ms_arn := ms_arn st;
        ms_versions :=
          List.map
            (fun v =>
               let v1 :=
                 if String.eqb (v_id v) RemoveFromVersionId
                 then without_stages [VersionStage] v else v in
               if String.eqb (v_id v) MoveToVersionId
               then with_stage VersionStage v1 else v1)
            (ms_versions st);
        ms_minted := ms_minted st |}).

#[export] Instance mem_secrets_manager : SecretsManager MemStore := {|
  get_secret_value := mem_get;
  put_secret_value := mem_put;
  update_secret_version_stage := mem_update
|}.

(** The labels a version carries in the service. *)
Definition stages_of (id : string) (st : MemStore) : list string :=
  match List.find (fun v => String.eqb (v_id v) id) (ms_versions st) with
  | Some v => v_stages v
  | None => []
  end.

(** A small JSON codec, enough for the secrets of the examples: strings
    are written between quotes without escaping, dicts and lists with
    their entries, and numbers are not covered (they are written [null]).
    Reading recognises the text of a fixed list of documents. *)
Definition quoted (s : string) : string :=
  String "034"%char (s ++ String "034"%char EmptyString).

Fixpoint small_dumps (v : value) : string :=
  match v with
  | VNone => "null"
  | VBool true => "true"
  | VBool false => "false"
  | VInt _ => "null"
  | VFloat _ => "null"
  | VStr s => quoted s
  | VList l => "[" ++ String.concat ", " (List.map small_dumps l) ++ "]"
  | VDict d =>
      "{" ++ String.concat ", "
               (List.map (fun kv => quoted (fst kv) ++ ": " ++ snd kv)
                  (map_to_list (small_dumps <$> d)))
          ++ "}"
  end.

(** The secret of the examples, with or without a username. *)
Definition fields_of (username : option string) : gmap string value :=
  let rest : gmap string value :=
    <["password" := VStr "old"]>
      (<["token" := VStr "oldtok"]> (<["api_key" := VStr "oldkey"]> ∅)) in
  match username with
  | Some u => <["username" := VStr u]> rest
  | None => rest
  end.

Definition secret_of (username : option string) : value :=
  VDict (fields_of username).

Definition known_documents : list value :=
  [secret_of (Some "alice"); secret_of (Some ""); secret_of None;
   VList [VStr "alice"]].

Definition small_loads (s : string) : result value :=
  match List.find (fun v => String.eqb (small_dumps v) s) known_documents with
  | Some v => inr v
  | None =>
      inl (Exn "JSONDecodeError" "Expecting value: line 1 column 1 (char 0)")
  end.

#[export] Instance small_json : Json := {|
  json_loads := small_loads;
  json_dumps := small_dumps
|}.

Definition demo_arn : string :=
  "arn:aws:secretsmanager:eu-west-1:000000000000:secret:podinfo".

(** The environment of a configured function, and one where no region
    is set. *)
Definition demo_environ : gmap string string :=
  <["SECRET_ARN" := demo_arn]> {["AWS_DEFAULT_REGION" := "eu-west-1"]}.

Definition regionless_environ : gmap string string :=
  {["SECRET_ARN" := demo_arn]}.

Definition NoRegionError : exn := Exn "NoRegionError" "You must specify a region.".

(** A client is built when the environment names a region. *)
#[export] Instance region_boto3 : Boto3 := {|
  boto3_client service_name environ :=
    match environ !! "AWS_DEFAULT_REGION" with
    | Some _ => inr tt
    | None => inl NoRegionError
    end
|}.

(** A service whose current version [v1] holds the given secret. *)
Definition store_holding (secret : value) : MemStore :=
  {| ms_arn := demo_arn;
     ms_versions :=
       [{| v_id := "v1"; v_secret := small_dumps secret;
           v_stages := ["AWSCURRENT"] |}];
     ms_minted := 1 |}.

Definition empty_store : MemStore :=
  {| ms_arn := demo_arn; ms_versions := []; ms_minted := 0 |}.

Definition world_of (st : MemStore) : World MemStore nat :=
  {| w_store := st; w_rng := 0; w_calls := [] |}.

(** A generator that ignores the requested length and returns four
    characters: what a test injects to make validation fail. *)
Definition short_password (length : Z) : M nat string := ret "abcd".

(** ** Logging *)

(** The module's logger is the root logger, set to level [INFO]; the
    handler and the validator call [logger.info] and [logger.error]. *)
Inductive log_level : Type := DEBUG | INFO | WARNING | ERROR | CRITICAL.

(** [logging.DEBUG] ... [logging.CRITICAL] *)
Definition levelno (l : log_level) : Z :=
  match l with
  | DEBUG => 10
  | INFO => 20
  | WARNING => 30
  | ERROR => 40
  | CRITICAL => 50
  end.

Record log_record : Type := { levelname : log_level; message : string }.

(** [logger.setLevel(logging.INFO)] *)
Definition logger_level : log_level := INFO.

(** [logger.log(level, message)]: the record is made when the level is
    enabled for the logger. *)
Definition logger_log (level : log_level) (message : string)
  : list log_record :=
  if (levelno logger_level <=? levelno level)%Z
  then [{| levelname := level; message := message |}]
  else [].

Definition logger_info : string -> list log_record := logger_log INFO.
Definition logger_error : string -> list log_record := logger_log ERROR.

(** [validate_secret] with the records it logs: the line of success at the
    end of the [try], the text of the exception in the [except], and
    nothing where a guard returns [False]. *)
Definition validate_secret_logged (secret : value) : bool * list log_record :=
  match validate_secret_try secret with
  | inl e => (false, logger_error ("Secret validation failed: " ++ exn_str e))
  | inr true => (true, logger_info "Secret validation passed")
  | inr false => (false, [])
  end.

Section LoggedHandler.
Context {store rng : Type}.
Context `{SecretsManager store} `{RandomSource rng} `{Json} `{Boto3}.

(** A step of the handler that does not log. *)
Definition quiet {A} (m : M (World store rng) A)
  : M (World store rng * list log_record) A :=
  fun s => let '(r, w) := m (fst s) in (r, (w, snd s)).

(** Records handed to the logger are appended to those already there. *)
Definition logging (records : list log_record)
  : M (World store rng * list log_record) unit :=
  fun s => (inr tt, (fst s, (snd s ++ records)%list)).

(** The [try] block of [lambda_handler] with its calls to the logger. *)
Definition lambda_handler_try_logged (secret_arn : string)
  : M (World store rng * list log_record) http_response :=
  response <- quiet (client_get_secret_value secret_arn) ;;
  secret_string <- of_result (response_SecretString response) ;;
  current_secret <- of_result (json_loads secret_string) ;;
  new_password <- quiet (random (generate_password 32%Z)) ;;
  new_token <- quiet (random (generate_token 64%Z)) ;;
  new_api_key <- quiet (random (generate_api_key 48%Z)) ;;
  username <- of_result (py_get current_secret "username" (VStr "podinfo-user")) ;;
  let new_secret :=
    new_secret_dict username new_password new_token new_api_key in
  _ <- quiet (client_put_secret_value secret_arn (json_dumps new_secret)
                ["AWSPENDING"]) ;;
  let '(valid, records) := validate_secret_logged new_secret in
  _ <- logging records ;;
  if valid then
    _ <- quiet (client_update_secret_version_stage secret_arn "AWSCURRENT"
                  (VersionId response) (VersionId response)) ;;
    _ <- logging (logger_info "Secret rotation completed successfully") ;;
    ret {| statusCode := 200%Z;
           body := json_dumps (VStr "Secret rotation completed successfully") |}
  else
    _ <- logging (logger_error "Secret validation failed") ;;
    ret {| statusCode := 500%Z;
           body := json_dumps (VStr "Secret validation failed") |}.

(** [lambda_handler] with its calls to the logger: the first line is
    logged before [SECRET_ARN] is looked up and the client is built. *)
Definition lambda_handler_logged
    (environ : gmap string string) (event context : value)
  : M (World store rng * list log_record) http_response :=
  _ <- logging (logger_info ("Starting secret rotation for event: "
                             ++ json_dumps event)) ;;
  match environ !! "SECRET_ARN" with
  | None => raise (KeyError "SECRET_ARN")
  | Some secret_arn =>
      match boto3_client "secretsmanager" environ with
      | inl e => raise e
      | inr _ =>
          try_except (lambda_handler_try_logged secret_arn)
            (fun e =>
               _ <- logging (logger_error ("Error during secret rotation: "
                                           ++ exn_str e)) ;;
               ret {| statusCode := 500%Z;
                      body := json_dumps
                                (VStr ("Error during secret rotation: "
                                       ++ exn_str e)) |})
      end
  end.
End LoggedHandler.

(** The status of the response, when the handler returned one. *)
Definition returned_status (o : result http_response) : option Z :=
  match o with
  | inl _ => None
  | inr r => Some (statusCode r)
  end.

(** A service as [MemStore] whose operations can be made to fail: the
    read returns a secret without [SecretString], the pending write is
    refused, the stage update is refused. *)
Record FaultyStore : Type := {
  fs_store : MemStore;
  fs_binary : bool;
  fs_put_refused : bool;
  fs_update_refused : bool
}.

Definition AccessDenied (operation : string) : exn :=
  Exn "ClientError"
      ("An error occurred (AccessDeniedException) when calling the "
       ++ operation ++ " operation: access denied").

Definition with_inner (st : FaultyStore) (inner : MemStore) : FaultyStore :=
  {| fs_store := inner; fs_binary := fs_binary st;
     fs_put_refused := fs_put_refused st;
     fs_update_refused := fs_update_refused st |}.

#[export] Instance faulty_secrets_manager : SecretsManager FaultyStore := {|
  get_secret_value SecretId st :=
    match mem_get SecretId (fs_store st) with
    | inl e => inl e
    | inr response =>
        inr (if fs_binary st
             then {| SecretString := None; VersionId := VersionId response |}
             else response)
    end;
  put_secret_value SecretId SecretString VersionStages st :=
    if fs_put_refused st then (inl (AccessDenied "PutSecretValue"), st)
    else
      let '(r, inner) :=
        mem_put SecretId SecretString VersionStages (fs_store st) in
      (r, with_inner st inner);
  update_secret_version_stage SecretId VersionStage MoveTo RemoveFrom st :=
    if fs_update_refused st
    then (inl (AccessDenied "UpdateSecretVersionStage"), st)
    else
      let '(r, inner) :=
        mem_update SecretId VersionStage MoveTo RemoveFrom (fs_store st) in
      (r, with_inner st inner)
|}.

Definition faulty (binary put_refused update_refused : bool) (inner : MemStore)
  : World FaultyStore nat :=
  {| w_store := {| fs_store := inner; fs_binary := binary;
                   fs_put_refused := put_refused;
                   fs_update_refused := update_refused |};
     w_rng := 0; w_calls := [] |}.

(** A service whose current version holds a text that is not JSON. *)
Definition store_holding_text (text : string) : MemStore :=
  {| ms_arn := demo_arn;
     ms_versions :=
       [{| v_id := "v1"; v_secret := text; v_stages := ["AWSCURRENT"] |}];
     ms_minted := 1 |}.

(** * Properties *)

(** ** The validator *)

Lemma nonempty_string_length (s : string) :
  String.eqb s "" = false <-> 0 < String.length s.
Proof.
  destruct s as [|c s]; simpl; split; intros Hs; try lia; congruence.
Qed.

Lemma str_len_le (s : string) : str_len s <= String.length s.
Proof.
  induction s as [|c s IH]; simpl; [lia |].
  destruct (utf8_continuation c); lia.
Qed.

(** A value with a positive length is true in a boolean context. *)
Lemma positive_len_truthy (v : value) (n : nat) :
  py_len v = inr n -> 0 < n -> truthy v = true.
Proof.
  destruct v as [| | | |s|l|d]; simpl; intros Hlen Hn; try discriminate;
    injection Hlen as <-.
  - pose proof (str_len_le s) as Hle.
    assert (Hpos : 0 < String.length s) by lia.
    apply nonempty_string_length in Hpos. now rewrite Hpos.
  - destruct l; simpl in *; [lia | reflexivity].
  - rewrite bool_decide_eq_false_2; [reflexivity |].
    intros ->. rewrite map_size_empty in Hn. lia.
Qed.

(** On a dict, a guard of the validator reads the one field it names. *)
Lemma field_too_short_dict (d : gmap string value) (key : string) (bound : nat) :
  field_too_short (VDict d) key bound =
    match d !! key with
    | None => inr true
    | Some v =>
        if truthy v then
          match py_len v with
          | inl e => inl e
          | inr n => inr (Nat.ltb n bound)
          end
        else inr true
    end.
Proof.
  unfold field_too_short. simpl.
  destruct (d !! key) as [v|]; simpl; [| reflexivity].
  destruct (truthy v); reflexivity.
Qed.

Lemma field_too_short_false (secret : value) (key : string) (bound : nat) :
  0 < bound ->
  field_too_short secret key bound = inr false <->
  field_at_least secret key bound.
Proof.
  intros Hbound. split.
  - destruct secret as [| | | | | |d]; try discriminate.
    rewrite field_too_short_dict.
    destruct (d !! key) as [v|] eqn:Hkey; [| discriminate].
    destruct (truthy v); [| discriminate].
    destruct (py_len v) as [e|n] eqn:Hlen; [discriminate |].
    intros Hlt. injection Hlt as Hlt. apply Nat.ltb_ge in Hlt.
    exists d, v, n. auto.
  - intros (d & v & n & -> & Hkey & Hlen & Hn).
    rewrite field_too_short_dict, Hkey.
    rewrite (positive_len_truthy v n Hlen) by lia.
    rewrite Hlen. f_equal. apply Nat.ltb_ge. exact Hn.
Qed.

Lemma field_too_short_true (secret : value) (key : string) (bound : nat) :
  field_missing_or_empty secret key ->
  field_too_short secret key bound = inr true.
Proof.
  intros (d & -> & Hkey). rewrite field_too_short_dict.
  destruct (d !! key) as [v|]; [| reflexivity]. now rewrite Hkey.
Qed.

(** The validator accepts exactly when none of its three guards fires. *)
Lemma validate_secret_true (secret : value) :
  validate_secret secret = true <->
  field_too_short secret "password" 8 = inr false /\
  field_too_short secret "token" 16 = inr false /\
  field_too_short secret "api_key" 16 = inr false.
Proof.
  unfold validate_secret, validate_secret_try.
  destruct (field_too_short secret "password" 8) as [e1|[|]];
    [intuition discriminate ..|].
  destruct (field_too_short secret "token" 16) as [e2|[|]];
    [intuition discriminate ..|].
  destruct (field_too_short secret "api_key" 16) as [e3|[|]];
    intuition discriminate.
Qed.

(** C3: [validate_secret] returns [True] exactly for a bundle whose
    [password] has length at least 8 and whose [token] and [api_key] have
    length at least 16, the length being what [len] gives: the number of
    characters of a string, of items of a list, of keys of a dict.  A missing or empty field gives [False], and so
    does any exception raised while the bundle is inspected: the function
    returns a boolean on every input. *)
Theorem validate_secret_iff_thresholds (bundle : value) :
  (validate_secret bundle = true <->
     field_at_least bundle "password" 8 /\
     field_at_least bundle "token" 16 /\
     field_at_least bundle "api_key" 16)
  /\ (forall key,
        In key ["password"; "token"; "api_key"] ->
        field_missing_or_empty bundle key ->
        validate_secret bundle = false)
  /\ (forall e, validate_secret_try bundle = inl e ->
                validate_secret bundle = false).
Proof.
  split; [| split].
  - rewrite validate_secret_true.
    rewrite !field_too_short_false by lia. reflexivity.
  - intros key Hin Hempty.
    destruct (validate_secret bundle) eqn:Hv; [| reflexivity].
    apply validate_secret_true in Hv. destruct Hv as (Hp & Ht & Hk).
    simpl in Hin.
    destruct Hin as [<- | [<- | [<- | []]]];
      match goal with
      | H : field_too_short _ ?k ?b = inr false |- _ =>
          rewrite (field_too_short_true bundle k b Hempty) in H; discriminate
      end.
  - intros e He. unfold validate_secret. now rewrite He.
Qed.

Lemma validate_secret_iff_thresholds_witness :
  validate_secret (new_secret_dict VNone "12345678" "0123456789abcdef"
                     "0123456789abcdef") = true
  /\ validate_secret (VDict (<["password" := VStr ""]> ∅)) = false
  /\ validate_secret (VDict (<["password" := VInt 12345678]> ∅)) = false
  /\ validate_secret (VList []) = false.
Proof.
  split; [| split; [| split]].
  - apply (validate_secret_iff_thresholds
             (new_secret_dict VNone "12345678" "0123456789abcdef"
                "0123456789abcdef")).
    unfold field_at_least, new_secret_dict.
    split; [| split]; eexists _, _, _;
      (split; [reflexivity |]); (split; [vm_compute; reflexivity |]);
      (split; [reflexivity |]); simpl; lia.
  - apply (validate_secret_iff_thresholds
             (VDict (<["password" := VStr ""]> ∅))) with (key := "password").
    + simpl. auto.
    + eexists. split; [reflexivity |]. vm_compute. reflexivity.
  - apply (validate_secret_iff_thresholds
             (VDict (<["password" := VInt 12345678]> ∅)))
      with (e := TypeError_len (VInt 12345678)).
    vm_compute. reflexivity.
  - apply (validate_secret_iff_thresholds (VList []))
      with (e := AttributeError (VList []) "get").
    vm_compute. reflexivity.
Defined.

(** Lengths are counted in characters, not bytes: four euro signs are too
    short for a password although they take twelve bytes, and eight are
    enough. *)
Lemma validate_secret_counts_characters :
  py_len (VStr "€€€€") = inr 4
  /\ String.length "€€€€" = 12
  /\ validate_secret
       (new_secret_dict VNone "€€€€" "0123456789abcdef" "0123456789abcdef")
     = false
  /\ validate_secret
       (new_secret_dict VNone "€€€€€€€€" "0123456789abcdef"
          "0123456789abcdef")
     = true.
Proof. repeat split; vm_compute; reflexivity. Qed.

(** ** The validator reads three fields only *)

(** C10: two bundles that agree on [password], [token] and [api_key] get
    the same verdict from [validate_secret], whatever their [username] and
    whatever other fields they carry. *)
Theorem validate_secret_reads_three_fields (d1 d2 : gmap string value) :
  d1 !! "password" = d2 !! "password" ->
  d1 !! "token" = d2 !! "token" ->
  d1 !! "api_key" = d2 !! "api_key" ->
  validate_secret (VDict d1) = validate_secret (VDict d2).
Proof.
  intros Hp Ht Hk. unfold validate_secret, validate_secret_try.
  rewrite !field_too_short_dict, Hp, Ht, Hk. reflexivity.
Qed.

Lemma validate_secret_reads_three_fields_witness :
  validate_secret
    (new_secret_dict (VStr "alice") "12345678" "0123456789abcdef"
       "0123456789abcdef")
  = validate_secret
      (VDict (<["password" := VStr "12345678"]>
              (<["token" := VStr "0123456789abcdef"]>
               (<["api_key" := VStr "0123456789abcdef"]>
                (<["note" := VList [VInt 1]]> ∅))))).
Proof.
  apply validate_secret_reads_three_fields; vm_compute; reflexivity.
Defined.

(** ** The generators *)

Lemma string_get_In (s : string) (i : nat) (c : ascii) :
  String.get i s = Some c -> In c (list_ascii_of_string s).
Proof.
  revert i. induction s as [|a s IH]; intros [|i]; simpl; try discriminate.
  - intros [= ->]. now left.
  - intros Hget. right. eapply IH, Hget.
Qed.

Lemma string_get_Some (s : string) (i : nat) :
  i < String.length s -> exists c, String.get i s = Some c.
Proof.
  revert i. induction s as [|a s IH]; intros [|i]; simpl; try lia.
  - intros _. now exists a.
  - intros Hi. apply IH. lia.
Qed.

Lemma occurs_in_In (c : ascii) (s : string) :
  occurs_in c s = true <-> In c (list_ascii_of_string s).
Proof.
  unfold occurs_in. rewrite existsb_exists. split.
  - intros (x & Hx & Heq). apply Ascii.eqb_eq in Heq. now subst.
  - intros Hin. exists c. split; [exact Hin | apply Ascii.eqb_refl].
Qed.

(** The two alphabets of the source are the character classes of the
    specification. *)
Lemma password_characters_alphabet (c : ascii) :
  occurs_in c (ascii_letters ++ digits ++ "!@#$%^&*") = password_alphabet c.
Proof.
  destruct c as [[|] [|] [|] [|] [|] [|] [|] [|]]; vm_compute; reflexivity.
Qed.

Lemma alnum_characters_alphabet (c : ascii) :
  occurs_in c (ascii_letters ++ digits) = alnum_alphabet c.
Proof.
  destruct c as [[|] [|] [|] [|] [|] [|] [|] [|]]; vm_compute; reflexivity.
Qed.

(** The characters of both alphabets are ASCII: a string over them has as
    many characters as bytes. *)
Lemma password_alphabet_ascii (c : ascii) :
  password_alphabet c = true -> utf8_continuation c = false.
Proof.
  destruct c as [[|] [|] [|] [|] [|] [|] [|] [|]]; vm_compute;
    intros Hc; first [reflexivity | discriminate Hc].
Qed.

Lemma alnum_alphabet_password (c : ascii) :
  alnum_alphabet c = true -> password_alphabet c = true.
Proof. unfold password_alphabet, alnum_alphabet. intros ->. reflexivity. Qed.

Lemma drawn_from_password_str_len (s : string) :
  drawn_from password_alphabet s -> str_len s = String.length s.
Proof.
  unfold drawn_from. induction s as [|c s IH]; simpl; [reflexivity |].
  intros Hall. inversion Hall as [|? ? Hc Hrest]; subst.
  rewrite (password_alphabet_ascii c Hc), (IH Hrest). reflexivity.
Qed.

Lemma drawn_from_alnum_str_len (s : string) :
  drawn_from alnum_alphabet s -> str_len s = String.length s.
Proof.
  intros Hall. apply drawn_from_password_str_len.
  unfold drawn_from in *. eapply Forall_impl; [exact Hall |].
  intros c Hc. simpl in *. now apply alnum_alphabet_password.
Qed.

Section GeneratorFacts.
Context {rng : Type} `{RandomSource rng}.

(** On a non-empty string [random.choice] returns one of its characters. *)
Lemma choice_occurs (seq : string) (g : rng) :
  0 < String.length seq ->
  exists c g', choice seq g = (inr c, g') /\ occurs_in c seq = true.
Proof.
  intros Hlen. unfold choice.
  destruct (Nat.eqb_spec (String.length seq) 0) as [E|_]; [lia |].
  pose proof (randbelow_lt (String.length seq) g Hlen) as Hlt.
  destruct (randbelow (String.length seq) g) as [i g']. simpl in Hlt.
  destruct (string_get_Some seq i Hlt) as [c Hc]. rewrite Hc.
  exists c, g'. split; [reflexivity |].
  apply occurs_in_In. eapply string_get_In, Hc.
Qed.

(** Joining [n] choices never raises, and gives [n] characters of the
    sequence chosen from. *)
Lemma join_choices_spec (characters : string) (n : nat) (g : rng) :
  0 < String.length characters ->
  exists s g',
    join_choices characters n g = (inr s, g')
    /\ String.length s = n
    /\ drawn_from (fun c => occurs_in c characters) s.
Proof.
  intros Hlen. revert g. induction n as [|n IH]; intros g.
  - exists "", g. repeat split. constructor.
  - destruct (choice_occurs characters g Hlen) as (c & g1 & Hc & Hin).
    destruct (IH g1) as (s & g2 & Hs & Hsize & Hall).
    exists (String c s), g2. simpl. unfold bind. rewrite Hc, Hs.
    repeat split.
    + simpl. now rewrite Hsize.
    + constructor; assumption.
Qed.

(** Joining [n] choices takes [n] draws below the size of the sequence and
    returns the characters at the positions drawn. *)
Lemma join_choices_draws (characters : string) (n : nat) (g : rng) :
  0 < String.length characters ->
  exists s,
    join_choices characters n g
    = (inr s, snd (draws n (String.length characters) g))
    /\ made_of characters (fst (draws n (String.length characters) g)) s.
Proof.
  intros Hlen. revert g. induction n as [|n IH]; intros g.
  - exists "". split; reflexivity.
  - simpl. unfold bind at 1. unfold choice at 1.
    destruct (Nat.eqb_spec (String.length characters) 0) as [E|_]; [lia |].
    pose proof (randbelow_lt (String.length characters) g Hlen) as Hlt.
    destruct (randbelow (String.length characters) g) as [i g1].
    simpl in Hlt.
    destruct (string_get_Some characters i Hlt) as [c Hc]. rewrite Hc.
    destruct (IH g1) as (s & Hs & Hmade).
    unfold bind, ret. rewrite Hs.
    destruct (draws n (String.length characters) g1) as [rest g2].
    exists (String c s). split; [reflexivity |].
    unfold made_of in *. simpl in *. now rewrite Hc, Hmade.
Qed.

Lemma drawn_from_ext (f h : ascii -> bool) (s : string) :
  (forall c, f c = h c) -> drawn_from f s -> drawn_from h s.
Proof.
  intros Hfh Hall. unfold drawn_from in *.
  eapply Forall_impl; [exact Hall |].
  intros c Hc. simpl in *. now rewrite <- Hfh.
Qed.

Lemma generate_password_spec (length : Z) (g : rng) :
  exists s g',
    generate_password length g = (inr s, g')
    /\ String.length s = Z.to_nat length
    /\ drawn_from password_alphabet s.
Proof.
  destruct (join_choices_spec (ascii_letters ++ digits ++ "!@#$%^&*")
              (Z.to_nat length) g) as (s & g' & Hs & Hlen & Hall).
  { simpl. lia. }
  exists s, g'. repeat split; try assumption.
  eapply drawn_from_ext; [apply password_characters_alphabet | exact Hall].
Qed.

Lemma generate_token_spec (length : Z) (g : rng) :
  exists s g',
    generate_token length g = (inr s, g')
    /\ String.length s = Z.to_nat length
    /\ drawn_from alnum_alphabet s.
Proof.
  destruct (join_choices_spec (ascii_letters ++ digits)
              (Z.to_nat length) g) as (s & g' & Hs & Hlen & Hall).
  { simpl. lia. }
  exists s, g'. repeat split; try assumption.
  eapply drawn_from_ext; [apply alnum_characters_alphabet | exact Hall].
Qed.

Lemma generate_api_key_spec (length : Z) (g : rng) :
  exists s g',
    generate_api_key length g = (inr s, g')
    /\ String.length s = Z.to_nat length
    /\ drawn_from alnum_alphabet s.
Proof. apply generate_token_spec. Qed.

(** What a generator returns is fresh random material over its alphabet. *)
Lemma generate_password_fresh (length : Z) (g : rng) (s : string) (g' : rng) :
  generate_password length g = (inr s, g') ->
  freshly_drawn (ascii_letters ++ digits ++ "!@#$%^&*") (Z.to_nat length)
    g s g'.
Proof.
  intros Hgen.
  destruct (join_choices_draws (ascii_letters ++ digits ++ "!@#$%^&*")
              (Z.to_nat length) g) as (s' & Hs & Hmade); [simpl; lia |].
  unfold generate_password in Hgen. rewrite Hgen in Hs.
  injection Hs as Hs1 Hs2. rewrite Hs1.
  split; [exact Hmade | exact Hs2].
Qed.

Lemma generate_token_fresh (length : Z) (g : rng) (s : string) (g' : rng) :
  generate_token length g = (inr s, g') ->
  freshly_drawn (ascii_letters ++ digits) (Z.to_nat length) g s g'.
Proof.
  intros Hgen.
  destruct (join_choices_draws (ascii_letters ++ digits)
              (Z.to_nat length) g) as (s' & Hs & Hmade); [simpl; lia |].
  unfold generate_token in Hgen. rewrite Hgen in Hs.
  injection Hs as Hs1 Hs2. rewrite Hs1.
  split; [exact Hmade | exact Hs2].
Qed.

Lemma generate_api_key_fresh (length : Z) (g : rng) (s : string) (g' : rng) :
  generate_api_key length g = (inr s, g') ->
  freshly_drawn (ascii_letters ++ digits) (Z.to_nat length) g s g'.
Proof. apply generate_token_fresh. Qed.

End GeneratorFacts.

(** ** The handler *)

(** The four fields of the dict the handler builds. *)
Lemma new_secret_dict_fields (username : value) (p t k : string) :
  exists d,
    new_secret_dict username p t k = VDict d
    /\ d !! "username" = Some username
    /\ d !! "password" = Some (VStr p)
    /\ d !! "token" = Some (VStr t)
    /\ d !! "api_key" = Some (VStr k).
Proof.
  eexists. split; [reflexivity |].
  repeat split; vm_compute; reflexivity.
Qed.

(** A bundle built from generated material of the lengths the handler
    asks for passes the validator, whatever its username. *)
Lemma generated_bundle_validates (username : value) (p t k : string) :
  str_len p = 32 -> str_len t = 64 -> str_len k = 48 ->
  validate_secret (new_secret_dict username p t k) = true.
Proof.
  intros Hp Ht Hk.
  destruct (new_secret_dict_fields username p t k)
    as (d & -> & _ & Hdp & Hdt & Hdk).
  apply validate_secret_true.
  rewrite !field_too_short_false by lia.
  repeat split.
  - exists d, (VStr p), 32. simpl. rewrite Hp. repeat split; auto; lia.
  - exists d, (VStr t), 64. simpl. rewrite Ht. repeat split; auto; lia.
  - exists d, (VStr k), 48. simpl. rewrite Hk. repeat split; auto; lia.
Qed.

Section HandlerFacts.
Context {store rng : Type}.
Context `{SecretsManager store} `{RandomSource rng} `{Json} `{Boto3}.

Lemma rotation_run_eq (secret_arn : string) (w : World store rng)
    (o o' : result http_response * World store rng) :
  rotation_run secret_arn w o -> o = o' -> rotation_run secret_arn w o'.
Proof. intros Hrun <-. exact Hrun. Qed.

Ltac same_world :=
  unfold left_with, sent, with_store, with_rng; simpl;
  rewrite <- ?app_assoc; reflexivity.

(** The [try] block ends in one of the seven ways of [rotation_run]: in
    particular validation never fails on what the generators return. *)
Lemma lambda_handler_try_run (secret_arn : string) (w : World store rng) :
  rotation_run secret_arn w (lambda_handler_try secret_arn w).
Proof.
  unfold lambda_handler_try, lambda_handler_try_with.
  unfold bind at 1. unfold client_get_secret_value at 1. simpl.
  destruct (get_secret_value secret_arn (w_store w)) as [e|response] eqn:Hget.
  { eapply rotation_run_eq; [eapply run_read_failed; eassumption | same_world]. }
  unfold bind at 1. unfold of_result at 1, response_SecretString.
  destruct (SecretString response) as [text|] eqn:Htext.
  2: { eapply rotation_run_eq;
       [eapply run_no_secret_string; eassumption | same_world]. }
  unfold bind at 1. unfold of_result at 1.
  destruct (json_loads text) as [e|current_secret] eqn:Hloads.
  { eapply rotation_run_eq; [eapply run_not_json; eassumption | same_world]. }
  destruct (generate_password_spec 32%Z (w_rng w)) as (p & g1 & Hp & Hlp & Hap).
  destruct (generate_token_spec 64%Z g1) as (t & g2 & Ht & Hlt & Hat).
  destruct (generate_api_key_spec 48%Z g2) as (k & g3 & Hk & Hlk & Hak).
  apply drawn_from_password_str_len in Hap.
  apply drawn_from_alnum_str_len in Hat, Hak.
  rewrite <- Hap in Hlp. rewrite <- Hat in Hlt. rewrite <- Hak in Hlk.
  assert (Hprep : prepared secret_arn w response current_secret p t k g3).
  { exists text, g1, g2. auto 10. }
  unfold bind at 1. unfold random at 1. simpl. rewrite Hp.
  unfold bind at 1. unfold random at 1. simpl. rewrite Ht.
  unfold bind at 1. unfold random at 1. simpl. rewrite Hk.
  unfold bind at 1. unfold of_result at 1.
  destruct (py_get current_secret "username" (VStr "podinfo-user"))
    as [e|username] eqn:Huser.
  { eapply rotation_run_eq;
      [eapply run_not_a_dict; eassumption | same_world]. }
  rewrite generated_bundle_validates by assumption.
  unfold bind at 1. unfold client_put_secret_value at 1. simpl.
  destruct (put_secret_value secret_arn
              (json_dumps (new_secret_dict username p t k)) ["AWSPENDING"]
              (w_store w)) as [[e|written] st] eqn:Hput.
  { eapply rotation_run_eq;
      [eapply run_write_failed; eassumption | same_world]. }
  unfold bind, client_update_secret_version_stage, ret. simpl.
  destruct (update_secret_version_stage secret_arn "AWSCURRENT"
              (VersionId response) (VersionId response) st)
    as [[e|[]] st'] eqn:Hupd.
  - eapply rotation_run_eq;
      [eapply run_promote_failed; eassumption | same_world].
  - eapply rotation_run_eq;
      [eapply run_rotated; eassumption | same_world].
Qed.


(** With [SECRET_ARN] set and the client built, the handler runs the [try]
    block and turns an exception into the error response, in the state the
    exception left. *)
Lemma lambda_handler_run (environ : gmap string string) (event context : value)
    (secret_arn : string) (w : World store rng) :
  environ !! "SECRET_ARN" = Some secret_arn ->
  boto3_client "secretsmanager" environ = inr tt ->
  lambda_handler environ event context w =
    match lambda_handler_try secret_arn w with
    | (inl e, w') => (inr (error_response e), w')
    | (inr r, w') => (inr r, w')
    end.
Proof.
  intros Henv Hclient. unfold lambda_handler, lambda_handler_with.
  rewrite Henv, Hclient. reflexivity.
Qed.

(** When the client cannot be built, what [boto3.client] raises leaves the
    handler. *)
Lemma lambda_handler_no_client (environ : gmap string string)
    (event context : value) (secret_arn : string) (w : World store rng)
    (e : exn) :
  environ !! "SECRET_ARN" = Some secret_arn ->
  boto3_client "secretsmanager" environ = inl e ->
  lambda_handler environ event context w = (inl e, w).
Proof.
  intros Henv Hclient. unfold lambda_handler, lambda_handler_with.
  now rewrite Henv, Hclient.
Qed.

(** Without it, the [KeyError] of the lookup leaves the handler. *)
Lemma lambda_handler_unconfigured (environ : gmap string string)
    (event context : value) (w : World store rng) :
  environ !! "SECRET_ARN" = None ->
  lambda_handler environ event context w = (inl (KeyError "SECRET_ARN"), w).
Proof.
  intros Henv. unfold lambda_handler, lambda_handler_with. now rewrite Henv.
Qed.

(** What the generators return to the handler has the requested lengths
    and alphabets. *)
Lemma prepared_material (secret_arn : string) (w : World store rng)
    (response : GetSecretValueResponse) (current_secret : value)
    (p t k : string) (g : rng) :
  prepared secret_arn w response current_secret p t k g ->
  (String.length p = 32 /\ drawn_from password_alphabet p)
  /\ (String.length t = 64 /\ drawn_from alnum_alphabet t)
  /\ (String.length k = 48 /\ drawn_from alnum_alphabet k).
Proof.
  intros (text & g1 & g2 & _ & _ & _ & Hp & Ht & Hk).
  destruct (generate_password_spec 32%Z (w_rng w)) as (p' & ? & Hp' & ? & ?).
  destruct (generate_token_spec 64%Z g1) as (t' & ? & Ht' & ? & ?).
  destruct (generate_api_key_spec 48%Z g2) as (k' & ? & Hk' & ? & ?).
  rewrite Hp in Hp'. rewrite Ht in Ht'. rewrite Hk in Hk'.
  injection Hp' as <- _. injection Ht' as <- _. injection Hk' as <- _.
  auto.
Qed.

Lemma prepared_lengths (secret_arn : string) (w : World store rng)
    (response : GetSecretValueResponse) (current_secret : value)
    (p t k : string) (g : rng) :
  prepared secret_arn w response current_secret p t k g ->
  str_len p = 32 /\ str_len t = 64 /\ str_len k = 48.
Proof.
  intros Hprep.
  destruct (prepared_material _ _ _ _ _ _ _ _ Hprep)
    as ((Hlp & Hap) & (Hlt & Hat) & (Hlk & Hak)).
  rewrite (drawn_from_password_str_len p Hap).
  rewrite (drawn_from_alnum_str_len t Hat).
  rewrite (drawn_from_alnum_str_len k Hak). auto.
Qed.

(** The requests of one run of the [try] block. *)
Lemma rotation_run_requests (secret_arn : string) (w : World store rng)
    (o : result http_response * World store rng) :
  rotation_run secret_arn w o ->
  exists requests,
    w_calls (snd o) = (w_calls w ++ requests)%list
    /\ rotation_requests secret_arn requests.
Proof.
  unfold rotation_requests.
  intros []; simpl; eexists; (split; [reflexivity |]); eauto 7.
Qed.

(** The [try] block up to the parsing of the current secret. *)
Lemma lambda_handler_try_read_failed (secret_arn : string)
    (w : World store rng) (e : exn) :
  get_secret_value secret_arn (w_store w) = inl e ->
  lambda_handler_try secret_arn w
  = (inl e, left_with w (w_store w) (w_rng w) [GetSecretValue secret_arn]).
Proof.
  intros Hget. unfold lambda_handler_try, lambda_handler_try_with.
  unfold bind at 1. unfold client_get_secret_value at 1. simpl.
  rewrite Hget. reflexivity.
Qed.

Lemma lambda_handler_try_no_secret_string (secret_arn : string)
    (w : World store rng) (response : GetSecretValueResponse) :
  get_secret_value secret_arn (w_store w) = inr response ->
  SecretString response = None ->
  lambda_handler_try secret_arn w
  = (inl (KeyError "SecretString"),
     left_with w (w_store w) (w_rng w) [GetSecretValue secret_arn]).
Proof.
  intros Hget Htext. unfold lambda_handler_try, lambda_handler_try_with.
  unfold bind at 1. unfold client_get_secret_value at 1. simpl.
  rewrite Hget.
  unfold bind at 1. unfold of_result at 1, response_SecretString.
  rewrite Htext. reflexivity.
Qed.

Lemma lambda_handler_try_not_json (secret_arn : string)
    (w : World store rng) (response : GetSecretValueResponse)
    (text : string) (e : exn) :
  get_secret_value secret_arn (w_store w) = inr response ->
  SecretString response = Some text ->
  json_loads text = inl e ->
  lambda_handler_try secret_arn w
  = (inl e, left_with w (w_store w) (w_rng w) [GetSecretValue secret_arn]).
Proof.
  intros Hget Htext Hloads.
  unfold lambda_handler_try, lambda_handler_try_with.
  unfold bind at 1. unfold client_get_secret_value at 1. simpl.
  rewrite Hget.
  unfold bind at 1. unfold of_result at 1, response_SecretString.
  rewrite Htext.
  unfold bind at 1. unfold of_result at 1. rewrite Hloads. reflexivity.
Qed.

(** The [try] block when the current secret has no [get]. *)
Lemma lambda_handler_try_not_a_dict (secret_arn : string)
    (w : World store rng) (response : GetSecretValueResponse)
    (current_secret : value) (p t k : string) (g : rng) (e : exn) :
  prepared secret_arn w response current_secret p t k g ->
  py_get current_secret "username" (VStr "podinfo-user") = inl e ->
  lambda_handler_try secret_arn w
  = (inl e, left_with w (w_store w) g [GetSecretValue secret_arn]).
Proof.
  intros (text & g1 & g2 & Hget & Htext & Hloads & Hp & Ht & Hk) Huser.
  unfold lambda_handler_try, lambda_handler_try_with.
  unfold bind at 1. unfold client_get_secret_value at 1. simpl.
  rewrite Hget.
  unfold bind at 1. unfold of_result at 1, response_SecretString.
  rewrite Htext.
  unfold bind at 1. unfold of_result at 1. rewrite Hloads.
  unfold bind at 1. unfold random at 1. simpl. rewrite Hp.
  unfold bind at 1. unfold random at 1. simpl. rewrite Ht.
  unfold bind at 1. unfold random at 1. simpl. rewrite Hk.
  unfold bind at 1. unfold of_result at 1. rewrite Huser. reflexivity.
Qed.

(** Once the first steps went through and the current secret is a dict,
    the rest of the [try] block is decided by the two writes. *)
Lemma lambda_handler_try_prepared (secret_arn : string) (w : World store rng)
    (response : GetSecretValueResponse) (current_secret username : value)
    (p t k : string) (g : rng) :
  prepared secret_arn w response current_secret p t k g ->
  py_get current_secret "username" (VStr "podinfo-user") = inr username ->
  let payload := json_dumps (new_secret_dict username p t k) in
  let put := PutSecretValue secret_arn payload ["AWSPENDING"] in
  let update :=
    UpdateSecretVersionStage secret_arn "AWSCURRENT"
      (VersionId response) (VersionId response) in
  lambda_handler_try secret_arn w =
    match put_secret_value secret_arn payload ["AWSPENDING"] (w_store w) with
    | (inl e, st) =>
        (inl e, left_with w st g [GetSecretValue secret_arn; put])
    | (inr _, st) =>
        match update_secret_version_stage secret_arn "AWSCURRENT"
                (VersionId response) (VersionId response) st with
        | (inl e, st') =>
            (inl e, left_with w st' g [GetSecretValue secret_arn; put; update])
        | (inr _, st') =>
            (inr success_response,
             left_with w st' g [GetSecretValue secret_arn; put; update])
        end
    end.
Proof.
  intros Hprep Huser payload put update.
  destruct (prepared_lengths _ _ _ _ _ _ _ _ Hprep) as (Hlp & Hlt & Hlk).
  destruct Hprep as (text & g1 & g2 & Hget & Htext & Hloads & Hp & Ht & Hk).
  unfold lambda_handler_try, lambda_handler_try_with.
  unfold bind at 1. unfold client_get_secret_value at 1. simpl.
  rewrite Hget.
  unfold bind at 1. unfold of_result at 1, response_SecretString.
  rewrite Htext.
  unfold bind at 1. unfold of_result at 1. rewrite Hloads.
  unfold bind at 1. unfold random at 1. simpl. rewrite Hp.
  unfold bind at 1. unfold random at 1. simpl. rewrite Ht.
  unfold bind at 1. unfold random at 1. simpl. rewrite Hk.
  unfold bind at 1. unfold of_result at 1. rewrite Huser.
  rewrite generated_bundle_validates by assumption.
  unfold bind at 1. unfold client_put_secret_value at 1. simpl.
  subst payload put update.
  destruct (put_secret_value secret_arn
              (json_dumps (new_secret_dict username p t k)) ["AWSPENDING"]
              (w_store w)) as [[e|written] st].
  { unfold left_with, sent, with_store, with_rng. simpl.
    rewrite <- ?app_assoc. reflexivity. }
  unfold bind, client_update_secret_version_stage, ret. simpl.
  destruct (update_secret_version_stage secret_arn "AWSCURRENT"
              (VersionId response) (VersionId response) st)
    as [[e|[]] st'];
    unfold left_with, sent, with_store, with_rng; simpl;
    rewrite <- ?app_assoc; reflexivity.
Qed.

(** C5: when the read of step 1 raises, the handler returns status 500
    with the text of the exception in the body; the read is the only
    request it has sent, so neither the pending write nor the stage update
    is called, and the service is as it was. *)
Theorem read_failure_stops_rotation (environ : gmap string string)
    (event context : value) (secret_arn : string) (w : World store rng)
    (e : exn) :
  environ !! "SECRET_ARN" = Some secret_arn ->
  boto3_client "secretsmanager" environ = inr tt ->
  get_secret_value secret_arn (w_store w) = inl e ->
  exists w',
    lambda_handler environ event context w =
      (inr {| statusCode := 500%Z;
              body := json_dumps
                        (VStr ("Error during secret rotation: " ++ exn_str e)) |},
       w')
    /\ w_calls w' = (w_calls w ++ [GetSecretValue secret_arn])%list
    /\ w_store w' = w_store w.
Proof.
  intros Henv Hclient Hget.
  rewrite (lambda_handler_run _ _ _ secret_arn) by assumption.
  pose proof (lambda_handler_try_run secret_arn w) as Hrun.
  inversion Hrun as
    [e' Hget' Heq | r Hget' | r ? ? Hget' | r ? ? ? ? ? ? Hprep
    | r ? ? ? ? ? ? ? ? Hprep | r ? ? ? ? ? ? ? ? ? ? Hprep
    | r ? ? ? ? ? ? ? ? ? Hprep];
    try (destruct Hprep as (? & ? & ? & Hget' & _));
    rewrite Hget in Hget'; try discriminate.
  injection Hget' as <-.
  eexists. split; [reflexivity |]. split; reflexivity.
Qed.

(** C7, as the code has it: with the secret identifier configured and the
    client built, a fault raised by any step of the [try] block is caught
    and answered with status 500 and the text of the fault after
    ["Error during secret rotation: "].  This holds for a fault of the read,
    of [response['SecretString']], of [json.loads], of [current_secret.get],
    of the pending write and of the stage update; the generators and the
    validator raise none.  The state the handler returns in is the one the
    fault left: the requests sent are those up to the faulty step, each
    once, so nothing is retried and nothing written is taken back.  No
    fault of the [try] block leaves the handler; those of the two lines
    before it are not covered. *)
Theorem faults_are_caught_and_reported (environ : gmap string string)
    (event context : value) (secret_arn : string) (w : World store rng) :
  environ !! "SECRET_ARN" = Some secret_arn ->
  boto3_client "secretsmanager" environ = inr tt ->
  (forall e,
      get_secret_value secret_arn (w_store w) = inl e ->
      lambda_handler environ event context w
      = (inr (error_response e),
         left_with w (w_store w) (w_rng w) [GetSecretValue secret_arn]))
  /\ (forall response,
        get_secret_value secret_arn (w_store w) = inr response ->
        SecretString response = None ->
        lambda_handler environ event context w
        = (inr (error_response (KeyError "SecretString")),
           left_with w (w_store w) (w_rng w) [GetSecretValue secret_arn]))
  /\ (forall response text e,
        get_secret_value secret_arn (w_store w) = inr response ->
        SecretString response = Some text ->
        json_loads text = inl e ->
        lambda_handler environ event context w
        = (inr (error_response e),
           left_with w (w_store w) (w_rng w) [GetSecretValue secret_arn]))
  /\ (forall response current_secret p t k g e,
        prepared secret_arn w response current_secret p t k g ->
        py_get current_secret "username" (VStr "podinfo-user") = inl e ->
        lambda_handler environ event context w
        = (inr (error_response e),
           left_with w (w_store w) g [GetSecretValue secret_arn]))
  /\ (forall response current_secret p t k g username e st,
        prepared secret_arn w response current_secret p t k g ->
        py_get current_secret "username" (VStr "podinfo-user")
        = inr username ->
        put_secret_value secret_arn
          (json_dumps (new_secret_dict username p t k)) ["AWSPENDING"]
          (w_store w) = (inl e, st) ->
        lambda_handler environ event context w
        = (inr (error_response e),
           left_with w st g
             [GetSecretValue secret_arn;
              PutSecretValue secret_arn
                (json_dumps (new_secret_dict username p t k))
                ["AWSPENDING"]]))
  /\ (forall response current_secret p t k g username written st e st',
        prepared secret_arn w response current_secret p t k g ->
        py_get current_secret "username" (VStr "podinfo-user")
        = inr username ->
        put_secret_value secret_arn
          (json_dumps (new_secret_dict username p t k)) ["AWSPENDING"]
          (w_store w) = (inr written, st) ->
        update_secret_version_stage secret_arn "AWSCURRENT"
          (VersionId response) (VersionId response) st = (inl e, st') ->
        lambda_handler environ event context w
        = (inr (error_response e),
           left_with w st' g
             [GetSecretValue secret_arn;
              PutSecretValue secret_arn
                (json_dumps (new_secret_dict username p t k))
                ["AWSPENDING"];
              UpdateSecretVersionStage secret_arn "AWSCURRENT"
                (VersionId response) (VersionId response)]))
  /\ (exists r, fst (lambda_handler environ event context w) = inr r)
  /\ (exists requests,
        w_calls (snd (lambda_handler environ event context w))
        = (w_calls w ++ requests)%list
        /\ rotation_requests secret_arn requests).
Proof.
  intros Henv Hclient.
  rewrite (lambda_handler_run _ _ _ secret_arn) by assumption.
  repeat apply conj.
  - intros e Hget.
    now rewrite (lambda_handler_try_read_failed _ _ _ Hget).
  - intros response Hget Htext.
    now rewrite (lambda_handler_try_no_secret_string _ _ _ Hget Htext).
  - intros response text e Hget Htext Hloads.
    now rewrite (lambda_handler_try_not_json _ _ _ _ _ Hget Htext Hloads).
  - intros response current_secret p t k g e Hprep Huser.
    now rewrite (lambda_handler_try_not_a_dict _ _ _ _ _ _ _ _ _ Hprep Huser).
  - intros response current_secret p t k g username e st Hprep Huser Hput.
    rewrite (lambda_handler_try_prepared _ _ _ _ _ _ _ _ _ Hprep Huser).
    simpl. now rewrite Hput.
  - intros response current_secret p t k g username written st e st'
      Hprep Huser Hput Hupd.
    rewrite (lambda_handler_try_prepared _ _ _ _ _ _ _ _ _ Hprep Huser).
    simpl. now rewrite Hput, Hupd.
  - destruct (lambda_handler_try secret_arn w) as [[e|r] w1]; simpl; eauto.
  - pose proof (rotation_run_requests _ _ _
                  (lambda_handler_try_run secret_arn w)) as Hreq.
    destruct (lambda_handler_try secret_arn w) as [[e|r] w1]; exact Hreq.
Qed.

(** C9: the validation-failed branch of the handler is dead.  A bundle
    whose password, token and API key have 32, 64 and 48 characters passes
    [validate_secret], and the [try] block, when it returns at all, returns
    the success response with status 200. *)
Theorem validation_failed_unreachable :
  (forall (username : value) (p t k : string),
      str_len p = 32 -> str_len t = 64 -> str_len k = 48 ->
      validate_secret (new_secret_dict username p t k) = true)
  /\ (forall (secret_arn : string) (w : World store rng) r w',
        lambda_handler_try secret_arn w = (inr r, w') ->
        r = {| statusCode := 200%Z;
               body := json_dumps
                         (VStr "Secret rotation completed successfully") |}).
Proof.
  split; [exact generated_bundle_validates |].
  intros secret_arn w r w' Heq.
  pose proof (lambda_handler_try_run secret_arn w) as Hrun.
  rewrite Heq in Hrun. inversion Hrun. reflexivity.
Qed.

(** C8: when the current secret is a dict, the bundle written in step 3
    carries the username of the current secret, or ["podinfo-user"] when
    the current secret has none.  Its password, token and API key are
    fresh random material: the password is made of the characters of the
    password alphabet at 32 successive draws of the random source, the
    token of those of the alphanumeric alphabet at the next 64 draws, the
    API key of those at the next 48.  They are what [generate_password 32],
    [generate_token 64] and [generate_api_key 48] return, they have these
    lengths, and they are decided by the random source alone: nothing of
    the current secret enters them. *)
Theorem new_bundle_username_and_material (secret_arn : string)
    (w : World store rng) (response : GetSecretValueResponse)
    (text : string) (current : gmap string value) :
  get_secret_value secret_arn (w_store w) = inr response ->
  SecretString response = Some text ->
  json_loads text = inr (VDict current) ->
  exists (p t k : string) (g1 g2 g3 : rng) (bundle : gmap string value)
         (later : list call),
    generate_password 32%Z (w_rng w) = (inr p, g1)
    /\ generate_token 64%Z g1 = (inr t, g2)
    /\ generate_api_key 48%Z g2 = (inr k, g3)
    /\ freshly_drawn (ascii_letters ++ digits ++ "!@#$%^&*") 32 (w_rng w) p g1
    /\ freshly_drawn (ascii_letters ++ digits) 64 g1 t g2
    /\ freshly_drawn (ascii_letters ++ digits) 48 g2 k g3
    /\ py_len (VStr p) = inr 32
    /\ py_len (VStr t) = inr 64
    /\ py_len (VStr k) = inr 48
    /\ w_calls (snd (lambda_handler_try secret_arn w))
       = (w_calls w
          ++ GetSecretValue secret_arn
             :: PutSecretValue secret_arn (json_dumps (VDict bundle))
                  ["AWSPENDING"]
             :: later)%list
    /\ bundle !! "username"
       = Some (match current !! "username" with
               | Some u => u
               | None => VStr "podinfo-user"
               end)
    /\ bundle !! "password" = Some (VStr p)
    /\ bundle !! "token" = Some (VStr t)
    /\ bundle !! "api_key" = Some (VStr k).
Proof.
  intros Hget Htext Hloads.
  pose proof (lambda_handler_try_run secret_arn w) as Hrun.
  inversion Hrun as
    [e' Hget' | r Hget' Htext' | r text' ? Hget' Htext' Hloads'
    | r cur p t k g e' Hprep Huser
    | r cur p t k g u e' st Hprep Huser
    | r cur p t k g u pr st e' st' Hprep Huser
    | r cur p t k g u pr st st' Hprep Huser];
    try (pose proof (prepared_lengths _ _ _ _ _ _ _ _ Hprep)
           as (Hlp & Hlt & Hlk);
         destruct Hprep
           as (text' & g1 & g2 & Hget' & Htext' & Hloads' & Hp & Ht & Hk));
    rewrite Hget in Hget'; try discriminate; injection Hget' as <-;
    rewrite Htext in Htext'; try discriminate; injection Htext' as <-;
    rewrite Hloads in Hloads'; try discriminate; injection Hloads' as <-;
    try discriminate Huser; simpl in Huser; injection Huser as <-;
    destruct (new_secret_dict_fields
                (match current !! "username" with
                 | Some v => v
                 | None => VStr "podinfo-user"
                 end) p t k) as (bundle & Hb & Hbu & Hbp & Hbt & Hbk);
    rewrite Hb; exists p, t, k, g1, g2, g, bundle; eexists;
    (split; [exact Hp |]); (split; [exact Ht |]); (split; [exact Hk |]);
    (split; [exact (generate_password_fresh _ _ _ _ Hp) |]);
    (split; [exact (generate_token_fresh _ _ _ _ Ht) |]);
    (split; [exact (generate_api_key_fresh _ _ _ _ Hk) |]);
    (split; [simpl; now rewrite Hlp |]);
    (split; [simpl; now rewrite Hlt |]);
    (split; [simpl; now rewrite Hlk |]);
    (repeat split; try eassumption); simpl; reflexivity.
Qed.

(** C4, as the code has it: a bundle the handler has written and then asked
    the service to promote has all four fields.  Its password, token and
    API key are non-empty strings.  Its username is that of the current
    secret, or ["podinfo-user"] when the current secret has none: it is a
    non-empty string exactly when the current secret has no username or a
    non-empty string as username, and an empty username is carried over. *)
Theorem promoted_bundle_fields (environ : gmap string string)
    (event context : value) (w w' : World store rng) (r : http_response) :
  lambda_handler environ event context w = (inr r, w') ->
  statusCode r = 200%Z ->
  exists (secret_arn : string) (response : GetSecretValueResponse)
         (text : string) (current : gmap string value) (username : value)
         (p t k move_to remove_from : string),
    get_secret_value secret_arn (w_store w) = inr response
    /\ SecretString response = Some text
    /\ json_loads text = inr (VDict current)
    /\ w_calls w'
       = (w_calls w
          ++ [GetSecretValue secret_arn;
              PutSecretValue secret_arn
                (json_dumps (new_secret_dict username p t k)) ["AWSPENDING"];
              UpdateSecretVersionStage secret_arn "AWSCURRENT"
                move_to remove_from])%list
    /\ py_get (new_secret_dict username p t k) "username" VNone = inr username
    /\ username = match current !! "username" with
                  | Some u => u
                  | None => VStr "podinfo-user"
                  end
    /\ field_nonempty (new_secret_dict username p t k) "password" = true
    /\ field_nonempty (new_secret_dict username p t k) "token" = true
    /\ field_nonempty (new_secret_dict username p t k) "api_key" = true
    /\ (field_nonempty (new_secret_dict username p t k) "username" = true
        <-> current !! "username" = None
            \/ exists s, current !! "username" = Some (VStr s) /\ s <> "").
Proof.
  intros Hrun Hstatus.
  destruct (environ !! "SECRET_ARN") as [secret_arn|] eqn:Henv.
  2: { rewrite lambda_handler_unconfigured in Hrun by exact Henv.
       discriminate. }
  destruct (boto3_client "secretsmanager" environ) as [ec|[]] eqn:Hclient.
  { rewrite (lambda_handler_no_client _ _ _ secret_arn _ ec) in Hrun
      by assumption.
    discriminate. }
  rewrite (lambda_handler_run _ _ _ secret_arn) in Hrun by assumption.
  pose proof (lambda_handler_try_run secret_arn w) as Htry.
  destruct (lambda_handler_try secret_arn w) as [[e|r1] w1].
  { injection Hrun as <- <-. discriminate. }
  injection Hrun as <- <-.
  inversion Htry as
    [| | | | |
    | response cur p t k g username pr st st' Hprep Huser Hput Hupd].
  subst.
  destruct (prepared_material _ _ _ _ _ _ _ _ Hprep)
    as ((Hlp & _) & (Hlt & _) & (Hlk & _)).
  destruct Hprep as (text & g1 & g2 & Hget & Htext & Hloads & _).
  destruct cur as [| | | | | |current]; try discriminate Huser.
  simpl in Huser. injection Huser as Huser.
  exists secret_arn, response, text, current, username, p, t, k,
    (VersionId response), (VersionId response).
  assert (Hne : forall s n, String.length s = S n ->
                            negb (String.eqb s "") = true).
  { intros [|c s] n Hs; [discriminate | reflexivity]. }
  destruct (new_secret_dict_fields username p t k)
    as (bundle & Hb & Hbu & Hbp & Hbt & Hbk).
  rewrite Hb. unfold field_nonempty, py_get. rewrite Hbu, Hbp, Hbt, Hbk.
  split; [exact Hget |]. split; [exact Htext |]. split; [exact Hloads |].
  split; [reflexivity |]. split; [reflexivity |].
  split; [now symmetry |].
  split; [eapply Hne, Hlp |].
  split; [eapply Hne, Hlt |].
  split; [eapply Hne, Hlk |].
  rewrite <- Huser.
  destruct (current !! "username") as [u|].
  - split.
    + destruct u as [| | | |s| |]; try discriminate. intros Hs. right.
      exists s. split; [reflexivity |]. intros ->. discriminate.
    + intros [[=] | (s & [= ->] & Hs)].
      destruct s; [congruence | reflexivity].
  - split; [now left | reflexivity].
Qed.


(** C6: if the handler is run with generators whose bundle the validator
    rejects, it returns status 500 with the validation-failed message.  The
    requests it has sent are the read and the pending write, not the stage
    update, and the service is left as the pending write left it: the
    pending version is neither promoted nor removed. *)
Theorem validation_failure_leaves_pending
    (gen_password gen_token gen_api_key : Z -> M rng string)
    (environ : gmap string string) (event context : value)
    (secret_arn : string) (w : World store rng)
    (response : GetSecretValueResponse) (text : string)
    (current_secret username : value) (p t k : string) (g1 g2 g3 : rng)
    (written : PutSecretValueResponse) (st : store) :
  environ !! "SECRET_ARN" = Some secret_arn ->
  boto3_client "secretsmanager" environ = inr tt ->
  get_secret_value secret_arn (w_store w) = inr response ->
  SecretString response = Some text ->
  json_loads text = inr current_secret ->
  gen_password 32%Z (w_rng w) = (inr p, g1) ->
  gen_token 64%Z g1 = (inr t, g2) ->
  gen_api_key 48%Z g2 = (inr k, g3) ->
  py_get current_secret "username" (VStr "podinfo-user") = inr username ->
  put_secret_value secret_arn
    (json_dumps (new_secret_dict username p t k)) ["AWSPENDING"] (w_store w)
  = (inr written, st) ->
  validate_secret (new_secret_dict username p t k) = false ->
  exists w',
    lambda_handler_with gen_password gen_token gen_api_key
      environ event context w
    = (inr {| statusCode := 500%Z;
              body := json_dumps (VStr "Secret validation failed") |}, w')
    /\ w_calls w'
       = (w_calls w
          ++ [GetSecretValue secret_arn;
              PutSecretValue secret_arn
                (json_dumps (new_secret_dict username p t k))
                ["AWSPENDING"]])%list
    /\ w_store w' = st.
Proof.
  intros Henv Hclient Hget Htext Hloads Hp Ht Hk Huser Hput Hval.
  unfold lambda_handler_with, lambda_handler_try_with, try_except.
  rewrite Henv, Hclient.
  unfold bind at 1. unfold client_get_secret_value at 1. simpl.
  rewrite Hget.
  unfold bind at 1. unfold of_result at 1, response_SecretString.
  rewrite Htext.
  unfold bind at 1. unfold of_result at 1. rewrite Hloads.
  unfold bind at 1. unfold random at 1. simpl. rewrite Hp.
  unfold bind at 1. unfold random at 1. simpl. rewrite Ht.
  unfold bind at 1. unfold random at 1. simpl. rewrite Hk.
  unfold bind at 1. unfold of_result at 1. rewrite Huser.
  rewrite Hval.
  unfold bind at 1. unfold client_put_secret_value at 1. simpl.
  rewrite Hput. unfold ret.
  eexists. split; [reflexivity |]. simpl.
  rewrite <- app_assoc. split; reflexivity.
Qed.

End HandlerFacts.

(** ** Runs on concrete inputs *)

Lemma read_failure_stops_rotation_witness :
  exists w',
    lambda_handler demo_environ VNone VNone (world_of empty_store) =
      (inr {| statusCode := 500%Z;
              body := json_dumps
                        (VStr ("Error during secret rotation: "
                               ++ exn_str ResourceNotFound)) |},
       w')
    /\ w_calls w' = [GetSecretValue demo_arn]
    /\ w_store w' = empty_store.
Proof.
  apply (read_failure_stops_rotation demo_environ VNone VNone demo_arn
           (world_of empty_store) ResourceNotFound);
    vm_compute; reflexivity.
Defined.

Lemma faults_are_caught_and_reported_witness :
  lambda_handler demo_environ VNone VNone
    (world_of (store_holding (VList [VStr "alice"])))
  = (inr (error_response (AttributeError (VList [VStr "alice"]) "get")),
     left_with (world_of (store_holding (VList [VStr "alice"])))
       (store_holding (VList [VStr "alice"])) 144
       [GetSecretValue demo_arn])
  /\ exists st',
       lambda_handler demo_environ VNone VNone
         (faulty false false true (store_holding (secret_of (Some "alice"))))
       = (inr (error_response (AccessDenied "UpdateSecretVersionStage")),
          left_with
            (faulty false false true
               (store_holding (secret_of (Some "alice"))))
            st' 144
            [GetSecretValue demo_arn;
             PutSecretValue demo_arn
               (json_dumps
                  (new_secret_dict (VStr "alice")
                     "abcdefghijklmnopqrstuvwxyzABCDEF"
                     "GHIJKLMNOPQRSTUVWXYZ0123456789abcdefghijklmnopqrstuvwxyzABCDEFGH"
                     "IJKLMNOPQRSTUVWXYZ0123456789abcdefghijklmnopqrst"))
               ["AWSPENDING"];
             UpdateSecretVersionStage demo_arn "AWSCURRENT" "v1" "v1"]).
Proof.
  split.
  - destruct (faults_are_caught_and_reported demo_environ VNone VNone demo_arn
                (world_of (store_holding (VList [VStr "alice"]))))
      as (_ & _ & _ & Hget & _); [vm_compute; reflexivity ..|].
    apply (Hget {| SecretString := Some (small_dumps (VList [VStr "alice"]));
                   VersionId := "v1" |}
             (VList [VStr "alice"])
             "abcdefghijklmnopqrstuvwxyzABCDEF"
             "GHIJKLMNOPQRSTUVWXYZ0123456789abcdefghijklmnopqrstuvwxyzABCDEFGH"
             "IJKLMNOPQRSTUVWXYZ0123456789abcdefghijklmnopqrst").
    + exists (small_dumps (VList [VStr "alice"])), 32, 96.
      repeat split; vm_compute; reflexivity.
    + reflexivity.
  - destruct (faults_are_caught_and_reported demo_environ VNone VNone demo_arn
                (faulty false false true
                   (store_holding (secret_of (Some "alice")))))
      as (_ & _ & _ & _ & _ & Hupdate & _); [vm_compute; reflexivity ..|].
    eexists.
    apply (Hupdate
             {| SecretString := Some (small_dumps (secret_of (Some "alice")));
                VersionId := "v1" |}
             (secret_of (Some "alice"))
             "abcdefghijklmnopqrstuvwxyzABCDEF"
             "GHIJKLMNOPQRSTUVWXYZ0123456789abcdefghijklmnopqrstuvwxyzABCDEFGH"
             "IJKLMNOPQRSTUVWXYZ0123456789abcdefghijklmnopqrst"
             144 (VStr "alice") {| put_VersionId := "v2" |}
             (snd (put_secret_value demo_arn
                     (small_dumps
                        (new_secret_dict (VStr "alice")
                           "abcdefghijklmnopqrstuvwxyzABCDEF"
                           "GHIJKLMNOPQRSTUVWXYZ0123456789abcdefghijklmnopqrstuvwxyzABCDEFGH"
                           "IJKLMNOPQRSTUVWXYZ0123456789abcdefghijklmnopqrst"))
                     ["AWSPENDING"]
                     (w_store (faulty false false true
                                 (store_holding (secret_of (Some "alice")))))))
             (AccessDenied "UpdateSecretVersionStage")).
    + exists (small_dumps (secret_of (Some "alice"))), 32, 96.
      repeat split; vm_compute; reflexivity.
    + vm_compute. reflexivity.
    + vm_compute. reflexivity.
    + vm_compute. reflexivity.
Defined.

(** Against C7 as stated: the two lines before the [try] are not guarded.
    With [SECRET_ARN] unset the [KeyError] of the lookup leaves the handler,
    and with it set but no region configured so does what [boto3.client]
    raises; in both cases no response is returned. *)
Lemma faults_before_try_escape :
  lambda_handler ∅ VNone VNone (world_of empty_store)
  = (inl (KeyError "SECRET_ARN"), world_of empty_store)
  /\ lambda_handler regionless_environ VNone VNone
       (world_of (store_holding (secret_of (Some "alice"))))
     = (inl NoRegionError,
        world_of (store_holding (secret_of (Some "alice")))).
Proof. split; vm_compute; reflexivity. Qed.

Lemma validation_failed_unreachable_witness :
  validate_secret
    (new_secret_dict (VStr "alice") "abcdefghijklmnopqrstuvwxyzABCDEF"
       "GHIJKLMNOPQRSTUVWXYZ0123456789abcdefghijklmnopqrstuvwxyzABCDEFGH"
       "IJKLMNOPQRSTUVWXYZ0123456789abcdefghijklmnopqrst") = true
  /\ exists r w',
       lambda_handler_try demo_arn
         (world_of (store_holding (secret_of (Some "alice")))) = (inr r, w')
       /\ r = {| statusCode := 200%Z;
                 body := json_dumps
                           (VStr "Secret rotation completed successfully") |}.
Proof.
  destruct (validation_failed_unreachable (store := MemStore) (rng := nat))
    as (Hvalid & Hdead).
  split; [apply Hvalid; reflexivity |].
  eexists _, _. split; [vm_compute; reflexivity |].
  apply (Hdead demo_arn (world_of (store_holding (secret_of (Some "alice"))))
           _ (snd (lambda_handler_try demo_arn
                     (world_of (store_holding (secret_of (Some "alice"))))))).
  vm_compute. reflexivity.
Defined.

Lemma new_bundle_username_and_material_witness :
  exists (p t k : string) (bundle : gmap string value) (later : list call),
    w_calls (snd (lambda_handler_try demo_arn
                    (world_of (store_holding (secret_of (Some "alice"))))))
    = GetSecretValue demo_arn
      :: PutSecretValue demo_arn (json_dumps (VDict bundle)) ["AWSPENDING"]
      :: later
    /\ bundle !! "username" = Some (VStr "alice")
    /\ bundle !! "password" = Some (VStr p)
    /\ bundle !! "token" = Some (VStr t)
    /\ bundle !! "api_key" = Some (VStr k)
    /\ fst (generate_password 32%Z 0) = inr p
    /\ py_len (VStr p) = inr 32
    /\ made_of (ascii_letters ++ digits ++ "!@#$%^&*")
         (fst (draws 32 70 0)) p.
Proof.
  destruct (new_bundle_username_and_material demo_arn
              (world_of (store_holding (secret_of (Some "alice"))))
              {| SecretString := Some (small_dumps (secret_of (Some "alice")));
                 VersionId := "v1" |}
              (small_dumps (secret_of (Some "alice")))
              (fields_of (Some "alice")))
    as (p & t & k & g1 & g2 & g3 & bundle & later
        & Hp & Ht & Hk & Hfp & _ & _ & Hlp & _ & _
        & Hcalls & Hu & Hbp & Hbt & Hbk);
    [vm_compute; reflexivity ..|].
  exists p, t, k, bundle, later.
  split; [exact Hcalls |]. split; [exact Hu |].
  split; [exact Hbp |]. split; [exact Hbt |]. split; [exact Hbk |].
  split; [simpl in Hp; now rewrite Hp |].
  split; [exact Hlp | exact (proj1 Hfp)].
Defined.

Lemma promoted_bundle_fields_witness :
  exists (username : value) (p t k : string),
    username = VStr "alice"
    /\ field_nonempty (new_secret_dict username p t k) "username" = true
    /\ field_nonempty (new_secret_dict username p t k) "password" = true
    /\ field_nonempty (new_secret_dict username p t k) "token" = true
    /\ field_nonempty (new_secret_dict username p t k) "api_key" = true.
Proof.
  destruct (promoted_bundle_fields demo_environ VNone VNone
              (world_of (store_holding (secret_of (Some "alice"))))
              (snd (lambda_handler demo_environ VNone VNone
                      (world_of (store_holding (secret_of (Some "alice"))))))
              {| statusCode := 200%Z;
                 body := json_dumps
                           (VStr "Secret rotation completed successfully") |})
    as (arn & response & text & current & username & p & t & k & mv & rm
        & Hget & Htext & Hloads & Hcalls & _ & Huser & Hp & Ht & Hk & Hu);
    [vm_compute; reflexivity | reflexivity |].
  assert (Hcurrent : current = fields_of (Some "alice")).
  { assert (Harn : arn = demo_arn).
    { assert (Hfirst :
                List.hd_error
                  (w_calls
                     (snd (lambda_handler demo_environ VNone VNone
                             (world_of
                                (store_holding (secret_of (Some "alice")))))))
                = Some (GetSecretValue demo_arn)) by (vm_compute; reflexivity).
      rewrite Hcalls in Hfirst. simpl in Hfirst. now injection Hfirst. }
    subst arn. vm_compute in Hget. injection Hget as <-.
    simpl in Htext. injection Htext as <-.
    vm_compute in Hloads. injection Hloads as <-. reflexivity. }
  exists username, p, t, k.
  split; [rewrite Huser, Hcurrent; reflexivity |].
  split; [| auto].
  apply Hu. right. exists "alice". rewrite Hcurrent.
  split; [reflexivity | discriminate].
Defined.


Lemma validation_failure_leaves_pending_witness :
  exists w',
    lambda_handler_with short_password generate_token generate_api_key
      demo_environ VNone VNone
      (world_of (store_holding (secret_of None)))
    = (inr {| statusCode := 500%Z;
              body := json_dumps (VStr "Secret validation failed") |}, w')
    /\ w_calls w'
       = [GetSecretValue demo_arn;
          PutSecretValue demo_arn
            (json_dumps
               (new_secret_dict (VStr "podinfo-user") "abcd"
                  "abcdefghijklmnopqrstuvwxyzABCDEFGHIJKLMNOPQRSTUVWXYZ0123456789ab"
                  "cdefghijklmnopqrstuvwxyzABCDEFGHIJKLMNOPQRSTUVWX"))
            ["AWSPENDING"]]
    /\ stages_of "v1" (w_store w') = ["AWSCURRENT"]
    /\ stages_of "v2" (w_store w') = ["AWSPENDING"].
Proof.
  destruct (validation_failure_leaves_pending
              short_password generate_token generate_api_key
              demo_environ VNone VNone demo_arn
              (world_of (store_holding (secret_of None)))
              {| SecretString := Some (small_dumps (secret_of None));
                 VersionId := "v1" |}
              (small_dumps (secret_of None))
              (secret_of None) (VStr "podinfo-user") "abcd"
              "abcdefghijklmnopqrstuvwxyzABCDEFGHIJKLMNOPQRSTUVWXYZ0123456789ab"
              "cdefghijklmnopqrstuvwxyzABCDEFGHIJKLMNOPQRSTUVWX"
              0 64 112
              {| put_VersionId := "v2" |}
              (snd (mem_put demo_arn
                      (small_dumps
                         (new_secret_dict (VStr "podinfo-user") "abcd"
                            "abcdefghijklmnopqrstuvwxyzABCDEFGHIJKLMNOPQRSTUVWXYZ0123456789ab"
                            "cdefghijklmnopqrstuvwxyzABCDEFGHIJKLMNOPQRSTUVWX"))
                      ["AWSPENDING"] (store_holding (secret_of None)))))
    as (w' & Hrun & Hcalls & Hstore); [vm_compute; reflexivity ..|].
  exists w'. split; [exact Hrun |]. split; [exact Hcalls |].
  rewrite Hstore. split; vm_compute; reflexivity.
Defined.

(** ** The stage update names the old version twice *)

(** The response of the pending write is dropped: the stage update is sent
    with the version identifier of the read in both places. *)
Lemma promote_request_names_read_version {store rng : Type}
    `{SecretsManager store} `{RandomSource rng} `{Json}
    (secret_arn : string) (w : World store rng) (requests : list call)
    (id stage move_to remove_from : string) :
  w_calls (snd (lambda_handler_try secret_arn w))
  = (w_calls w ++ requests)%list ->
  In (UpdateSecretVersionStage id stage move_to remove_from) requests ->
  exists response,
    get_secret_value secret_arn (w_store w) = inr response
    /\ move_to = VersionId response
    /\ remove_from = VersionId response.
Proof.
  intros Hcalls Hin.
  pose proof (lambda_handler_try_run secret_arn w) as Hrun.
  destruct (lambda_handler_try secret_arn w) as [o w1]. simpl in Hcalls.
  inversion Hrun as
    [| | | |
    | response cur p t k g username pr st e st' Hprep
    | response cur p t k g username pr st st' Hprep];
    subst; simpl in Hcalls; apply app_inv_head in Hcalls; subst requests;
    simpl in Hin;
    repeat (destruct Hin as [Hin | Hin]; try discriminate Hin);
    try contradiction;
    injection Hin as <- <- <- <-;
    destruct Hprep as (? & ? & ? & Hget & _); eauto.
Qed.

(** C1: on the store of the specification's example (current version [v1]
    holding alice's secret) the rotation succeeds with status 200 and the
    pending write creates version [v2]; the stage update is then sent with
    [v1] both as the version to move [AWSCURRENT] to and as the version to
    remove it from, not with [v2] and [v1].  Afterwards [v1] is still the
    current version and [v2] is still pending. *)
Theorem rotation_promotes_read_version :
  let w := world_of (store_holding (secret_of (Some "alice"))) in
  let payload :=
    json_dumps
      (new_secret_dict (VStr "alice") "abcdefghijklmnopqrstuvwxyzABCDEF"
         "GHIJKLMNOPQRSTUVWXYZ0123456789abcdefghijklmnopqrstuvwxyzABCDEFGH"
         "IJKLMNOPQRSTUVWXYZ0123456789abcdefghijklmnopqrst") in
  let run := lambda_handler demo_environ VNone VNone w in
  get_secret_value demo_arn (w_store w)
  = inr {| SecretString := Some (json_dumps (secret_of (Some "alice")));
           VersionId := "v1" |}
  /\ fst (put_secret_value demo_arn payload ["AWSPENDING"] (w_store w))
     = inr {| put_VersionId := "v2" |}
  /\ fst run
     = inr {| statusCode := 200%Z;
              body := json_dumps
                        (VStr "Secret rotation completed successfully") |}
  /\ w_calls (snd run)
     = [GetSecretValue demo_arn;
        PutSecretValue demo_arn payload ["AWSPENDING"];
        UpdateSecretVersionStage demo_arn "AWSCURRENT" "v1" "v1"]
  /\ w_calls (snd run)
     <> [GetSecretValue demo_arn;
         PutSecretValue demo_arn payload ["AWSPENDING"];
         UpdateSecretVersionStage demo_arn "AWSCURRENT" "v2" "v1"]
  /\ stages_of "v1" (w_store (snd run)) = ["AWSCURRENT"]
  /\ stages_of "v2" (w_store (snd run)) = ["AWSPENDING"].
Proof.
  intros w payload run.
  assert (Hcalls :
            w_calls (snd run)
            = [GetSecretValue demo_arn;
               PutSecretValue demo_arn payload ["AWSPENDING"];
               UpdateSecretVersionStage demo_arn "AWSCURRENT" "v1" "v1"])
    by (vm_compute; reflexivity).
  repeat split; try (vm_compute; reflexivity).
  rewrite Hcalls. intros Heq.
  apply (f_equal (fun l => List.nth_error l 2)) in Heq.
  simpl in Heq. discriminate Heq.
Qed.

(** ** An empty username is carried over *)

(** Against C4 as stated: when the current secret has an empty username,
    the rotation succeeds and the bundle written and then promoted has an
    empty username, so not all four of its fields are non-empty. *)
Lemma promoted_bundle_with_empty_username :
  let w := world_of (store_holding (secret_of (Some ""))) in
  let bundle :=
    new_secret_dict (VStr "") "abcdefghijklmnopqrstuvwxyzABCDEF"
      "GHIJKLMNOPQRSTUVWXYZ0123456789abcdefghijklmnopqrstuvwxyzABCDEFGH"
      "IJKLMNOPQRSTUVWXYZ0123456789abcdefghijklmnopqrst" in
  let run := lambda_handler demo_environ VNone VNone w in
  fst run
  = inr {| statusCode := 200%Z;
           body := json_dumps (VStr "Secret rotation completed successfully") |}
  /\ w_calls (snd run)
     = [GetSecretValue demo_arn;
        PutSecretValue demo_arn (json_dumps bundle) ["AWSPENDING"];
        UpdateSecretVersionStage demo_arn "AWSCURRENT" "v1" "v1"]
  /\ field_nonempty bundle "username" = false
  /\ all_fields_nonempty bundle = false.
Proof.
  repeat split; vm_compute; reflexivity.
Qed.

(** * Further properties *)

(** ** Generators at the edges and in sequence *)

Section GeneratorEdges.
Context {rng : Type} `{RandomSource rng}.

(** X1: Asked for no characters, or for a negative number of them, the three
    generators return the empty string and leave the random source alone. *)
Theorem generators_nonpositive_length (length : Z) (g : rng) :
  (length <= 0)%Z ->
  generate_password length g = (inr "", g)
  /\ generate_token length g = (inr "", g)
  /\ generate_api_key length g = (inr "", g).
Proof.
  intros Hle.
  unfold generate_password, generate_token, generate_api_key.
  replace (Z.to_nat length) with 0 by lia.
  repeat split.
Qed.

Lemma join_choices_app (characters : string) (a b : nat) (g : rng) :
  join_choices characters (a + b) g =
    (s1 <- join_choices characters a ;;
     s2 <- join_choices characters b ;;
     ret (s1 ++ s2)) g.
Proof.
  revert g. induction a as [|a IH]; intros g; simpl.
  - unfold bind, ret. simpl.
    destruct (join_choices characters b g) as [[e|s] g']; reflexivity.
  - unfold bind, ret in *.
    destruct (choice characters g) as [[e|c] g1]; [reflexivity |].
    rewrite IH.
    destruct (join_choices characters a g1) as [[e|s1] g2]; [reflexivity |].
    destruct (join_choices characters b g2) as [[e|s2] g3]; reflexivity.
Qed.

(** X2: Drawing [a + b] characters is drawing [a] characters and then [b]
    more from where the random source was left, and joining the two. *)
Theorem generators_draw_in_sequence (a b : Z) (g : rng) :
  (0 <= a)%Z -> (0 <= b)%Z ->
  generate_password (a + b) g =
    (s1 <- generate_password a ;; s2 <- generate_password b ;;
     ret (s1 ++ s2)) g
  /\ generate_token (a + b) g =
       (s1 <- generate_token a ;; s2 <- generate_token b ;;
        ret (s1 ++ s2)) g
  /\ generate_api_key (a + b) g =
       (s1 <- generate_api_key a ;; s2 <- generate_api_key b ;;
        ret (s1 ++ s2)) g.
Proof.
  intros Ha Hb.
  unfold generate_password, generate_token, generate_api_key.
  rewrite Z2Nat.inj_add by assumption.
  repeat split; apply join_choices_app.
Qed.

End GeneratorEdges.

Lemma generators_nonpositive_length_witness :
  generate_password (-3)%Z 7 = (inr "", 7)
  /\ generate_token (-3)%Z 7 = (inr "", 7)
  /\ generate_api_key (-3)%Z 7 = (inr "", 7).
Proof. apply generators_nonpositive_length. lia. Defined.

Lemma generators_draw_in_sequence_witness :
  generate_password (2 + 3)%Z 0 =
    (s1 <- generate_password 2%Z ;; s2 <- generate_password 3%Z ;;
     ret (s1 ++ s2)) 0.
Proof. apply (generators_draw_in_sequence 2 3 0); lia. Defined.

(** ** The handler on its failure paths *)

Section HandlerEdges.
Context {store rng : Type}.
Context `{SecretsManager store} `{RandomSource rng} `{Json} `{Boto3}.

(** X3: When the pending write raises, the handler answers 500 with the text
    of the exception and never asks for the stage update: the requests
    sent are the read and the write, and the service is as the failed
    write left it. *)
Theorem write_failure_skips_promotion (environ : gmap string string)
    (event context : value) (secret_arn : string) (w : World store rng)
    (response : GetSecretValueResponse) (current_secret username : value)
    (p t k : string) (g : rng) (e : exn) (st : store) :
  environ !! "SECRET_ARN" = Some secret_arn ->
  boto3_client "secretsmanager" environ = inr tt ->
  prepared secret_arn w response current_secret p t k g ->
  py_get current_secret "username" (VStr "podinfo-user") = inr username ->
  put_secret_value secret_arn
    (json_dumps (new_secret_dict username p t k)) ["AWSPENDING"] (w_store w)
  = (inl e, st) ->
  exists w',
    lambda_handler environ event context w =
      (inr {| statusCode := 500%Z;
              body := json_dumps
                        (VStr ("Error during secret rotation: " ++ exn_str e)) |},
       w')
    /\ w_calls w'
       = (w_calls w
          ++ [GetSecretValue secret_arn;
              PutSecretValue secret_arn
                (json_dumps (new_secret_dict username p t k))
                ["AWSPENDING"]])%list
    /\ w_store w' = st.
Proof.
  intros Henv Hclient Hprep Huser Hput.
  rewrite (lambda_handler_run _ _ _ secret_arn) by assumption.
  rewrite (lambda_handler_try_prepared _ _ _ _ _ _ _ _ _ Hprep Huser).
  simpl. rewrite Hput.
  eexists. split; [reflexivity |]. split; reflexivity.
Qed.

(** X4: When the stage update raises, the handler answers 500 with the text of
    the exception although the pending version has been written: the three
    requests were sent once each and the service is as the failed update
    left it. *)
Theorem promote_failure_reports_error (environ : gmap string string)
    (event context : value) (secret_arn : string) (w : World store rng)
    (response : GetSecretValueResponse) (current_secret username : value)
    (p t k : string) (g : rng) (written : PutSecretValueResponse)
    (e : exn) (st st' : store) :
  environ !! "SECRET_ARN" = Some secret_arn ->
  boto3_client "secretsmanager" environ = inr tt ->
  prepared secret_arn w response current_secret p t k g ->
  py_get current_secret "username" (VStr "podinfo-user") = inr username ->
  put_secret_value secret_arn
    (json_dumps (new_secret_dict username p t k)) ["AWSPENDING"] (w_store w)
  = (inr written, st) ->
  update_secret_version_stage secret_arn "AWSCURRENT"
    (VersionId response) (VersionId response) st = (inl e, st') ->
  exists w',
    lambda_handler environ event context w =
      (inr {| statusCode := 500%Z;
              body := json_dumps
                        (VStr ("Error during secret rotation: " ++ exn_str e)) |},
       w')
    /\ w_calls w'
       = (w_calls w
          ++ [GetSecretValue secret_arn;
              PutSecretValue secret_arn
                (json_dumps (new_secret_dict username p t k))
                ["AWSPENDING"];
              UpdateSecretVersionStage secret_arn "AWSCURRENT"
                (VersionId response) (VersionId response)])%list
    /\ w_store w' = st'.
Proof.
  intros Henv Hclient Hprep Huser Hput Hupd.
  rewrite (lambda_handler_run _ _ _ secret_arn) by assumption.
  rewrite (lambda_handler_try_prepared _ _ _ _ _ _ _ _ _ Hprep Huser).
  simpl. rewrite Hput, Hupd.
  eexists. split; [reflexivity |]. split; reflexivity.
Qed.

(** X5: A secret without [SecretString] (one stored as binary) stops the
    rotation at [response['SecretString']]: the answer is 500 with the
    [KeyError] text, only the read was sent, and neither the service nor
    the random source has moved. *)
Theorem binary_secret_stops_rotation (environ : gmap string string)
    (event context : value) (secret_arn : string) (w : World store rng)
    (response : GetSecretValueResponse) :
  environ !! "SECRET_ARN" = Some secret_arn ->
  boto3_client "secretsmanager" environ = inr tt ->
  get_secret_value secret_arn (w_store w) = inr response ->
  SecretString response = None ->
  lambda_handler environ event context w =
    (inr {| statusCode := 500%Z;
            body := json_dumps
                      (VStr "Error during secret rotation: 'SecretString'") |},
     {| w_store := w_store w; w_rng := w_rng w;
        w_calls := w_calls w ++ [GetSecretValue secret_arn] |}).
Proof.
  intros Henv Hclient Hget Htext.
  unfold lambda_handler, lambda_handler_with. rewrite Henv, Hclient.
  unfold try_except, lambda_handler_try_with.
  unfold bind at 1. unfold client_get_secret_value at 1. simpl.
  rewrite Hget.
  unfold bind at 1. unfold of_result at 1, response_SecretString.
  rewrite Htext. reflexivity.
Qed.

(** X6: A [SecretString] that [json.loads] refuses stops the rotation there:
    the answer is 500 with the decoder's text, only the read was sent, and
    neither the service nor the random source has moved. *)
Theorem malformed_secret_stops_rotation (environ : gmap string string)
    (event context : value) (secret_arn : string) (w : World store rng)
    (response : GetSecretValueResponse) (text : string) (e : exn) :
  environ !! "SECRET_ARN" = Some secret_arn ->
  boto3_client "secretsmanager" environ = inr tt ->
  get_secret_value secret_arn (w_store w) = inr response ->
  SecretString response = Some text ->
  json_loads text = inl e ->
  lambda_handler environ event context w =
    (inr {| statusCode := 500%Z;
            body := json_dumps
                      (VStr ("Error during secret rotation: " ++ exn_str e)) |},
     {| w_store := w_store w; w_rng := w_rng w;
        w_calls := w_calls w ++ [GetSecretValue secret_arn] |}).
Proof.
  intros Henv Hclient Hget Htext Hloads.
  unfold lambda_handler, lambda_handler_with. rewrite Henv, Hclient.
  unfold try_except, lambda_handler_try_with.
  unfold bind at 1. unfold client_get_secret_value at 1. simpl.
  rewrite Hget.
  unfold bind at 1. unfold of_result at 1, response_SecretString.
  rewrite Htext.
  unfold bind at 1. unfold of_result at 1. rewrite Hloads. reflexivity.
Qed.

(** X7: A current secret that is valid JSON but not an object (a list, a
    string, a number, [null]) stops the rotation at [current_secret.get]:
    the answer is 500 with the [AttributeError] text naming its type, and
    nothing is written, although the three generators have already run. *)
Theorem non_object_secret_stops_rotation (environ : gmap string string)
    (event context : value) (secret_arn : string) (w : World store rng)
    (response : GetSecretValueResponse) (current_secret : value)
    (p t k : string) (g : rng) :
  environ !! "SECRET_ARN" = Some secret_arn ->
  boto3_client "secretsmanager" environ = inr tt ->
  prepared secret_arn w response current_secret p t k g ->
  (forall d, current_secret <> VDict d) ->
  lambda_handler environ event context w =
    (inr {| statusCode := 500%Z;
            body := json_dumps
                      (VStr ("Error during secret rotation: '"
                             ++ type_name current_secret
                             ++ "' object has no attribute 'get'")) |},
     {| w_store := w_store w; w_rng := g;
        w_calls := w_calls w ++ [GetSecretValue secret_arn] |}).
Proof.
  intros Henv Hclient Hprep Hnot.
  destruct Hprep as (text & g1 & g2 & Hget & Htext & Hloads & Hp & Ht & Hk).
  unfold lambda_handler, lambda_handler_with. rewrite Henv, Hclient.
  unfold try_except, lambda_handler_try_with.
  unfold bind at 1. unfold client_get_secret_value at 1. simpl.
  rewrite Hget.
  unfold bind at 1. unfold of_result at 1, response_SecretString.
  rewrite Htext.
  unfold bind at 1. unfold of_result at 1. rewrite Hloads.
  unfold bind at 1. unfold random at 1. simpl. rewrite Hp.
  unfold bind at 1. unfold random at 1. simpl. rewrite Ht.
  unfold bind at 1. unfold random at 1. simpl. rewrite Hk.
  unfold bind at 1. unfold of_result at 1.
  destruct current_secret as [| | | | | |d];
    try reflexivity.
  destruct (Hnot d). reflexivity.
Qed.


(** X8: Once [SECRET_ARN] is read and the client is built, the handler
    answers 200 exactly when the read returned a secret that parses to a
    JSON object and both writes went through; every other answer is a
    500. *)
Theorem rotation_succeeds_iff (environ : gmap string string)
    (event context : value) (secret_arn : string) (w : World store rng) :
  environ !! "SECRET_ARN" = Some secret_arn ->
  boto3_client "secretsmanager" environ = inr tt ->
  (returned_status (fst (lambda_handler environ event context w)) = Some 200%Z
   <-> exists response current p t k g username written st st',
         prepared secret_arn w response (VDict current) p t k g
         /\ py_get (VDict current) "username" (VStr "podinfo-user")
            = inr username
         /\ put_secret_value secret_arn
              (json_dumps (new_secret_dict username p t k)) ["AWSPENDING"]
              (w_store w) = (inr written, st)
         /\ update_secret_version_stage secret_arn "AWSCURRENT"
              (VersionId response) (VersionId response) st = (inr tt, st'))
  /\ (returned_status (fst (lambda_handler environ event context w))
      = Some 200%Z
      \/ returned_status (fst (lambda_handler environ event context w))
         = Some 500%Z).
Proof.
  intros Henv Hclient.
  rewrite (lambda_handler_run _ _ _ secret_arn) by assumption.
  pose proof (lambda_handler_try_run secret_arn w) as Hrun.
  split.
  - split.
    + destruct (lambda_handler_try secret_arn w) as [[e|r] w1];
        [discriminate |].
      intros _.
      inversion Hrun as
        [| | | | |
        | response cur p t k g username pr st st' Hprep Huser Hput Hupd].
      subst.
      destruct cur as [| | | | | |current]; try discriminate Huser.
      exists response, current, p, t, k, g, username, pr, st, st'. auto.
    + intros (response & current & p & t & k & g & username & written & st
              & st' & Hprep & Huser & Hput & Hupd).
      rewrite (lambda_handler_try_prepared _ _ _ _ _ _ _ _ _ Hprep Huser).
      simpl. rewrite Hput, Hupd. reflexivity.
  - destruct (lambda_handler_try secret_arn w) as [[e|r] w1];
      [right; reflexivity |].
    inversion Hrun. left. reflexivity.
Qed.

(** X9: The handler lets an exception through exactly when [SECRET_ARN] is
    not in the environment or [boto3.client] raises: these two lines come
    before the [try].  The exception is then the [KeyError] of the lookup,
    or with [SECRET_ARN] set what [boto3.client] raised; no request has
    been sent and nothing has changed. *)
Theorem handler_raises_iff_unconfigured (environ : gmap string string)
    (event context : value) (w : World store rng) :
  ((exists e, fst (lambda_handler environ event context w) = inl e)
   <-> environ !! "SECRET_ARN" = None
       \/ exists e, boto3_client "secretsmanager" environ = inl e)
  /\ (forall e, fst (lambda_handler environ event context w) = inl e ->
                (match environ !! "SECRET_ARN" with
                 | None => e = KeyError "SECRET_ARN"
                 | Some _ => boto3_client "secretsmanager" environ = inl e
                 end)
                /\ snd (lambda_handler environ event context w) = w).
Proof.
  destruct (environ !! "SECRET_ARN") as [secret_arn|] eqn:Henv.
  - destruct (boto3_client "secretsmanager" environ) as [ec|[]] eqn:Hclient.
    + rewrite (lambda_handler_no_client _ _ _ secret_arn _ ec) by assumption.
      simpl. split; [split; eauto |]. intros e [= <-]. auto.
    + rewrite (lambda_handler_run _ _ _ secret_arn) by assumption.
      destruct (lambda_handler_try secret_arn w) as [[e|r] w1]; simpl;
        (split;
         [split; [intros (e' & [=]) | intros [[=] | (e' & [=])]]
         | intros e' [=]]).
  - rewrite lambda_handler_unconfigured by exact Henv. simpl.
    split; [split; eauto |]. intros e [= <-]. auto.
Qed.

(** X10: A pending write is only sent after the read returned a secret that
    parses to a JSON object, and the bundle it carries has the four keys
    [username], [password], [token] and [api_key] and no other: whatever
    else the current secret holds is not carried to the new version. *)
Theorem pending_write_has_four_keys (secret_arn : string)
    (w : World store rng) (requests : list call) (id payload : string)
    (stages : list string) :
  w_calls (snd (lambda_handler_try secret_arn w))
  = (w_calls w ++ requests)%list ->
  In (PutSecretValue id payload stages) requests ->
  exists (response : GetSecretValueResponse) (text : string)
         (current bundle : gmap string value),
    get_secret_value secret_arn (w_store w) = inr response
    /\ SecretString response = Some text
    /\ json_loads text = inr (VDict current)
    /\ payload = json_dumps (VDict bundle)
    /\ dom bundle
       = ({["username"; "password"; "token"; "api_key"]} : gset string).
Proof.
  intros Hcalls Hin.
  pose proof (lambda_handler_try_run secret_arn w) as Hrun.
  destruct (lambda_handler_try secret_arn w) as [o w1]. simpl in Hcalls.
  inversion Hrun as
    [| | |
    | response cur p t k g username e st Hprep Huser
    | response cur p t k g username pr st e st' Hprep Huser
    | response cur p t k g username pr st st' Hprep Huser];
    subst; simpl in Hcalls; apply app_inv_head in Hcalls; subst requests;
    simpl in Hin;
    repeat (destruct Hin as [Hin | Hin]; try discriminate Hin);
    try contradiction;
    injection Hin as <- <- <-;
    destruct Hprep as (text & ? & ? & Hget & Htext & Hloads & _);
    (destruct cur as [| | | | | |current]; try discriminate Huser);
    eexists response, text, current, _;
    (repeat (split; [eassumption || reflexivity |]));
    rewrite !dom_insert_L, dom_empty_L; set_solver.
Qed.

End HandlerEdges.

(** ** What is logged *)

Lemma validate_secret_logged_verdict (secret : value) :
  fst (validate_secret_logged secret) = validate_secret secret.
Proof.
  unfold validate_secret_logged, validate_secret.
  destruct (validate_secret_try secret) as [e|[|]]; reflexivity.
Qed.

(** A guard of the validator does not raise on a dict whose field is
    absent or a string. *)
Lemma field_too_short_string (d : gmap string value) (key : string)
    (bound : nat) :
  d !! key = None \/ (exists s, d !! key = Some (VStr s)) ->
  exists b, field_too_short (VDict d) key bound = inr b.
Proof.
  intros [Hnone | (s & Hs)]; rewrite field_too_short_dict.
  - rewrite Hnone. eauto.
  - rewrite Hs. simpl. destruct (negb (String.eqb s "")); eauto.
Qed.

(** X11: [validate_secret] logs the line of success exactly when it accepts,
    and the text of the exception when the inspection raised.  A bundle
    whose three fields are strings or absent and which is rejected leaves
    no record at all: the field at fault is not named anywhere. *)
Theorem validator_log (secret : value) :
  fst (validate_secret_logged secret) = validate_secret secret
  /\ (validate_secret secret = true <->
      snd (validate_secret_logged secret)
      = [{| levelname := INFO; message := "Secret validation passed" |}])
  /\ (forall e,
        validate_secret_try secret = inl e ->
        snd (validate_secret_logged secret)
        = [{| levelname := ERROR;
              message := "Secret validation failed: " ++ exn_str e |}])
  /\ (forall d,
        secret = VDict d ->
        (forall key, In key ["password"; "token"; "api_key"] ->
                     d !! key = None \/ exists s, d !! key = Some (VStr s)) ->
        validate_secret secret = false ->
        snd (validate_secret_logged secret) = []).
Proof.
  split; [apply validate_secret_logged_verdict |].
  unfold validate_secret_logged, validate_secret.
  split; [| split].
  - destruct (validate_secret_try secret) as [e|[|]]; simpl;
      split; intros Heq; try discriminate; reflexivity.
  - intros e ->. reflexivity.
  - intros d -> Hfields Hfalse.
    unfold validate_secret_try in *.
    destruct (field_too_short_string d "password" 8) as [b1 Hb1];
      [apply Hfields; simpl; auto |].
    rewrite Hb1 in *. destruct b1; [reflexivity |].
    destruct (field_too_short_string d "token" 16) as [b2 Hb2];
      [apply Hfields; simpl; auto |].
    rewrite Hb2 in *. destruct b2; [reflexivity |].
    destruct (field_too_short_string d "api_key" 16) as [b3 Hb3];
      [apply Hfields; simpl; auto |].
    rewrite Hb3 in *. destruct b3; [reflexivity | discriminate].
Qed.

Lemma validator_log_witness :
  snd (validate_secret_logged
         (new_secret_dict VNone "12345678" "0123456789abcdef"
            "0123456789abcdef"))
  = [{| levelname := INFO; message := "Secret validation passed" |}]
  /\ snd (validate_secret_logged (VList []))
     = [{| levelname := ERROR;
           message := "Secret validation failed: "
                      ++ "'list' object has no attribute 'get'" |}]
  /\ snd (validate_secret_logged (secret_of (Some "alice"))) = [].
Proof.
  split; [| split].
  - apply (validator_log
             (new_secret_dict VNone "12345678" "0123456789abcdef"
                "0123456789abcdef")).
    vm_compute. reflexivity.
  - apply (validator_log (VList [])
             ) with (e := AttributeError (VList []) "get").
    vm_compute. reflexivity.
  - apply (validator_log (secret_of (Some "alice")))
      with (d := fields_of (Some "alice")).
    + reflexivity.
    + intros key [<- | [<- | [<- | []]]]; right; eexists;
        vm_compute; reflexivity.
    + vm_compute. reflexivity.
Defined.

Section LoggedHandlerFacts.
Context {store rng : Type}.
Context `{SecretsManager store} `{RandomSource rng} `{Json} `{Boto3}.

Lemma quiet_bind {A B} (m : M (World store rng) A)
    (k : A -> M (World store rng * list log_record) B)
    (w : World store rng) (l : list log_record) :
  (x <- quiet m ;; k x) (w, l) =
    match m w with
    | (inl e, w') => (inl e, (w', l))
    | (inr a, w') => k a (w', l)
    end.
Proof. unfold bind, quiet. simpl. destruct (m w) as [[e|a] w']; reflexivity. Qed.

Lemma of_result_bind {St A B} (r : result A) (k : A -> M St B) (s : St) :
  (x <- of_result r ;; k x) s =
    match r with
    | inl e => (inl e, s)
    | inr a => k a s
    end.
Proof. unfold bind, of_result. destruct r; reflexivity. Qed.

Lemma logging_bind {B} (records : list log_record)
    (k : unit -> M (World store rng * list log_record) B)
    (w : World store rng) (l : list log_record) :
  (x <- logging records ;; k x) (w, l) = k tt (w, (l ++ records)%list).
Proof. reflexivity. Qed.

(** The [try] block with logging does what the one without does, and
    logs the line of the validator once the pending write went through and
    the line of success once the stage update went through. *)
Lemma lambda_handler_try_logged_run (secret_arn : string)
    (w : World store rng) (l : list log_record) :
  exists lines,
    lambda_handler_try_logged secret_arn (w, l)
    = (fst (lambda_handler_try secret_arn w),
       (snd (lambda_handler_try secret_arn w), (l ++ lines)%list))
    /\ match fst (lambda_handler_try secret_arn w) with
       | inr _ =>
           lines = logger_info "Secret validation passed"
                   ++ logger_info "Secret rotation completed successfully"
       | inl _ =>
           (lines = [] /\ ~ pending_written secret_arn w)
           \/ (lines = logger_info "Secret validation passed"
               /\ pending_written secret_arn w)
       end%list.
Proof.
  pose proof (lambda_handler_try_run secret_arn w) as Hrun.
  unfold lambda_handler_try_logged.
  rewrite quiet_bind. unfold client_get_secret_value at 1. simpl.
  inversion Hrun as
    [e Hget Ho | response Hget Htext Ho | response text e Hget Htext Hloads Ho
    | response cur p t k g e Hprep Huser Ho
    | response cur p t k g username e st Hprep Huser Hput Ho
    | response cur p t k g username pr st e st' Hprep Huser Hput Hupd Ho
    | response cur p t k g username pr st st' Hprep Huser Hput Hupd Ho];
    try (pose proof (prepared_lengths _ _ _ _ _ _ _ _ Hprep)
           as (Hlp & Hlt & Hlk);
         destruct Hprep
           as (text & g1 & g2 & Hget & Htext & Hloads & Hp & Ht & Hk));
    simpl; rewrite Hget.
  - exists []. rewrite app_nil_r. split; [reflexivity |].
    left; split; [reflexivity |];
      intros (response' & cur' & p' & t' & k' & g' & username' & written'
              & st0 & (text' & g1' & g2' & Hget' & Htext' & Hloads' & Hp'
                       & Ht' & Hk') & Huser' & Hput');
      congruence.
  - rewrite of_result_bind. unfold response_SecretString. rewrite Htext.
    exists []. rewrite app_nil_r. split; [reflexivity |].
    left; split; [reflexivity |];
      intros (response' & cur' & p' & t' & k' & g' & username' & written'
              & st0 & (text' & g1' & g2' & Hget' & Htext' & Hloads' & Hp'
                       & Ht' & Hk') & Huser' & Hput');
      congruence.
  - rewrite of_result_bind. unfold response_SecretString. rewrite Htext.
    rewrite of_result_bind, Hloads.
    exists []. rewrite app_nil_r. split; [reflexivity |].
    left; split; [reflexivity |];
      intros (response' & cur' & p' & t' & k' & g' & username' & written'
              & st0 & (text' & g1' & g2' & Hget' & Htext' & Hloads' & Hp'
                       & Ht' & Hk') & Huser' & Hput');
      congruence.
  - rewrite of_result_bind. unfold response_SecretString. rewrite Htext.
    rewrite of_result_bind, Hloads.
    rewrite quiet_bind. unfold random at 1. simpl. rewrite Hp.
    rewrite quiet_bind. unfold random at 1. simpl. rewrite Ht.
    rewrite quiet_bind. unfold random at 1. simpl. rewrite Hk.
    rewrite of_result_bind, Huser.
    exists []. rewrite app_nil_r. split; [reflexivity |].
    left; split; [reflexivity |];
      intros (response' & cur' & p' & t' & k' & g' & username' & written'
              & st0 & (text' & g1' & g2' & Hget' & Htext' & Hloads' & Hp'
                       & Ht' & Hk') & Huser' & Hput');
      congruence.
  - rewrite of_result_bind. unfold response_SecretString. rewrite Htext.
    rewrite of_result_bind, Hloads.
    rewrite quiet_bind. unfold random at 1. simpl. rewrite Hp.
    rewrite quiet_bind. unfold random at 1. simpl. rewrite Ht.
    rewrite quiet_bind. unfold random at 1. simpl. rewrite Hk.
    rewrite of_result_bind, Huser.
    rewrite quiet_bind. unfold client_put_secret_value at 1. simpl.
    rewrite Hput.
    exists []. rewrite app_nil_r. split.
    { unfold left_with, sent, with_store, with_rng. simpl.
      rewrite <- ?app_assoc. reflexivity. }
    left; split; [reflexivity |];
      intros (response' & cur' & p' & t' & k' & g' & username' & written'
              & st0 & (text' & g1' & g2' & Hget' & Htext' & Hloads' & Hp'
                       & Ht' & Hk') & Huser' & Hput');
      congruence.
  - rewrite of_result_bind. unfold response_SecretString. rewrite Htext.
    rewrite of_result_bind, Hloads.
    rewrite quiet_bind. unfold random at 1. simpl. rewrite Hp.
    rewrite quiet_bind. unfold random at 1. simpl. rewrite Ht.
    rewrite quiet_bind. unfold random at 1. simpl. rewrite Hk.
    rewrite of_result_bind, Huser.
    rewrite quiet_bind. unfold client_put_secret_value at 1. simpl.
    rewrite Hput.
    pose proof (generated_bundle_validates username p t k Hlp Hlt Hlk) as Hv.
    unfold validate_secret_logged. unfold validate_secret in Hv.
    destruct (validate_secret_try (new_secret_dict username p t k))
      as [e0|[|]]; try discriminate Hv.
    rewrite logging_bind.
    rewrite quiet_bind. unfold client_update_secret_version_stage at 1. simpl.
    rewrite Hupd.
    exists (logger_info "Secret validation passed"). split.
    { unfold left_with, sent, with_store, with_rng. simpl.
      rewrite <- ?app_assoc. reflexivity. }
    right. split; [reflexivity |].
    exists response, cur, p, t, k, g, username, pr, st.
    split; [exists text, g1, g2; auto 10 | auto].
  - rewrite of_result_bind. unfold response_SecretString. rewrite Htext.
    rewrite of_result_bind, Hloads.
    rewrite quiet_bind. unfold random at 1. simpl. rewrite Hp.
    rewrite quiet_bind. unfold random at 1. simpl. rewrite Ht.
    rewrite quiet_bind. unfold random at 1. simpl. rewrite Hk.
    rewrite of_result_bind, Huser.
    rewrite quiet_bind. unfold client_put_secret_value at 1. simpl.
    rewrite Hput.
    pose proof (generated_bundle_validates username p t k Hlp Hlt Hlk) as Hv.
    unfold validate_secret_logged. unfold validate_secret in Hv.
    destruct (validate_secret_try (new_secret_dict username p t k))
      as [e0|[|]]; try discriminate Hv.
    rewrite logging_bind.
    rewrite quiet_bind. unfold client_update_secret_version_stage at 1. simpl.
    rewrite Hupd. rewrite logging_bind. unfold ret.
    eexists. split; [| reflexivity].
    unfold left_with, sent, with_store, with_rng, success_response. simpl.
    rewrite <- ?app_assoc. reflexivity.
Qed.


(** The handler with logging, in terms of the handler without. *)
Lemma lambda_handler_logged_run (environ : gmap string string)
    (event context : value) (w : World store rng) (l : list log_record) :
  exists rest,
    lambda_handler_logged environ event context (w, l)
    = (fst (lambda_handler environ event context w),
       (snd (lambda_handler environ event context w),
        (l ++ {| levelname := INFO;
                 message := "Starting secret rotation for event: "
                            ++ json_dumps event |} :: rest)%list))
    /\ match environ !! "SECRET_ARN",
             boto3_client "secretsmanager" environ with
       | None, _ => rest = []
       | Some _, inl _ => rest = []
       | Some secret_arn, inr _ =>
           match fst (lambda_handler_try secret_arn w) with
           | inr _ =>
               rest = [{| levelname := INFO;
                          message := "Secret validation passed" |};
                       {| levelname := INFO;
                          message := "Secret rotation completed successfully" |}]
           | inl e =>
               (rest = [{| levelname := ERROR;
                           message := "Error during secret rotation: "
                                      ++ exn_str e |}]
                /\ ~ pending_written secret_arn w)
               \/ (rest = [{| levelname := INFO;
                              message := "Secret validation passed" |};
                           {| levelname := ERROR;
                              message := "Error during secret rotation: "
                                         ++ exn_str e |}]
                   /\ pending_written secret_arn w)
           end
       end.
Proof.
  unfold lambda_handler_logged. rewrite logging_bind.
  destruct (environ !! "SECRET_ARN") as [secret_arn|] eqn:Henv.
  - destruct (boto3_client "secretsmanager" environ) as [ec|[]] eqn:Hclient.
    { rewrite (lambda_handler_no_client _ _ _ secret_arn _ ec) by assumption.
      exists []. split; reflexivity. }
    rewrite (lambda_handler_run _ _ _ secret_arn) by assumption.
    unfold try_except.
    destruct (lambda_handler_try_logged_run secret_arn w
                (l ++ logger_info ("Starting secret rotation for event: "
                                   ++ json_dumps event))%list)
      as (lines & Heq & Hlines).
    rewrite Heq.
    destruct (lambda_handler_try secret_arn w) as [[e|r] w1]; simpl.
    + rewrite logging_bind. unfold ret. simpl.
      destruct Hlines as [(-> & Hnot) | (-> & Hwritten)]; eexists;
        (split; [rewrite <- ?app_assoc; reflexivity |]); auto.
    + simpl in Hlines. subst lines. eexists.
      split; [rewrite <- ?app_assoc; reflexivity | reflexivity].
  - rewrite lambda_handler_unconfigured by exact Henv.
    exists []. split; reflexivity.
Qed.

(** X12: Logging changes nothing else: the handler with its logger calls
    returns or raises what the handler without them does and leaves the
    same state.  It keeps the records already logged and adds, first of
    all, the line with the JSON text of the event; when [SECRET_ARN] is not
    set this line is the only one, logged before the [KeyError]. *)
Theorem logging_keeps_the_outcome (environ : gmap string string)
    (event context : value) (w : World store rng) (l : list log_record) :
  exists rest,
    lambda_handler_logged environ event context (w, l)
    = (fst (lambda_handler environ event context w),
       (snd (lambda_handler environ event context w),
        (l ++ {| levelname := INFO;
                 message := "Starting secret rotation for event: "
                            ++ json_dumps event |} :: rest)%list))
    /\ (environ !! "SECRET_ARN" = None -> rest = []).
Proof.
  destruct (lambda_handler_logged_run environ event context w l)
    as (rest & Heq & Hrest).
  exists rest. split; [exact Heq |].
  intros Henv. now rewrite Henv in Hrest.
Qed.

(** X13: A run that answers 200 has logged three lines, all at level [INFO]:
    the start, the validator's success and the completion. *)
Theorem success_log (environ : gmap string string) (event context : value)
    (w w' : World store rng) (l l' : list log_record) (r : http_response) :
  lambda_handler_logged environ event context (w, l) = (inr r, (w', l')) ->
  statusCode r = 200%Z ->
  l' = (l ++ [{| levelname := INFO;
                 message := "Starting secret rotation for event: "
                            ++ json_dumps event |};
              {| levelname := INFO; message := "Secret validation passed" |};
              {| levelname := INFO;
                 message := "Secret rotation completed successfully" |}])%list.
Proof.
  intros Hrun Hstatus.
  destruct (lambda_handler_logged_run environ event context w l)
    as (rest & Heq & Hrest).
  rewrite Heq in Hrun.
  destruct (environ !! "SECRET_ARN") as [secret_arn|] eqn:Henv.
  - destruct (boto3_client "secretsmanager" environ) as [ec|[]] eqn:Hclient.
    { rewrite (lambda_handler_no_client _ _ _ secret_arn _ ec) in Hrun
        by assumption.
      discriminate Hrun. }
    rewrite (lambda_handler_run _ _ _ secret_arn) in Hrun by assumption.
    destruct (lambda_handler_try secret_arn w) as [[e|r1] w1]; simpl in *.
    + injection Hrun as <- _ _. discriminate Hstatus.
    + injection Hrun as _ _ <-. now subst rest.
  - rewrite lambda_handler_unconfigured in Hrun by exact Henv.
    discriminate Hrun.
Qed.

(** X14: A run that answers 500 is one whose [try] block raised.  Its last
    record is an [ERROR] with the message ["Error during secret rotation: "]
    followed by the text of that exception, and this message is the string
    in the body of the response.  Before it come the start line and the
    validator's ["Secret validation passed"], the latter exactly when the
    pending write went through.  No record with the message
    ["Secret validation failed"] is added. *)
Theorem error_log (environ : gmap string string) (event context : value)
    (w w' : World store rng) (l l' : list log_record) (r : http_response) :
  lambda_handler_logged environ event context (w, l) = (inr r, (w', l')) ->
  statusCode r = 500%Z ->
  exists (secret_arn : string) (e : exn) (validated : list log_record),
    environ !! "SECRET_ARN" = Some secret_arn
    /\ lambda_handler_try secret_arn w = (inl e, w')
    /\ body r
       = json_dumps (VStr ("Error during secret rotation: " ++ exn_str e))
    /\ l' = (l ++ {| levelname := INFO;
                     message := "Starting secret rotation for event: "
                                ++ json_dumps event |}
               :: validated
               ++ [{| levelname := ERROR;
                      message := "Error during secret rotation: "
                                 ++ exn_str e |}])%list
    /\ ((validated = [] /\ ~ pending_written secret_arn w)
        \/ (validated
            = [{| levelname := INFO; message := "Secret validation passed" |}]
            /\ pending_written secret_arn w))
    /\ (forall record,
          In record
            ({| levelname := INFO;
                message := "Starting secret rotation for event: "
                           ++ json_dumps event |}
             :: validated
             ++ [{| levelname := ERROR;
                    message := "Error during secret rotation: "
                               ++ exn_str e |}])%list ->
          message record <> "Secret validation failed").
Proof.
  intros Hrun Hstatus.
  destruct (lambda_handler_logged_run environ event context w l)
    as (rest & Heq & Hrest).
  rewrite Heq in Hrun.
  destruct (environ !! "SECRET_ARN") as [secret_arn|] eqn:Henv.
  2: { rewrite lambda_handler_unconfigured in Hrun by exact Henv.
       discriminate Hrun. }
  destruct (boto3_client "secretsmanager" environ) as [ec|[]] eqn:Hclient.
  { rewrite (lambda_handler_no_client _ _ _ secret_arn _ ec) in Hrun
      by assumption.
    discriminate Hrun. }
  rewrite (lambda_handler_run _ _ _ secret_arn) in Hrun by assumption.
  pose proof (lambda_handler_try_run secret_arn w) as Htry.
  destruct (lambda_handler_try secret_arn w) as [[e|r1] w1] eqn:Etry;
    simpl in *.
  2: { injection Hrun as <- _ _. inversion Htry. subst.
       discriminate Hstatus. }
  injection Hrun as <- <- <-.
  exists secret_arn, e.
  destruct Hrest as [(-> & Hnot) | (-> & Hwritten)].
  - exists [].
    split; [reflexivity |]. split; [exact Etry |].
    split; [reflexivity |]. split; [reflexivity |].
    split; [left; auto |].
    intros record [<- | [<- | []]]; simpl; discriminate.
  - exists [{| levelname := INFO; message := "Secret validation passed" |}].
    split; [reflexivity |]. split; [exact Etry |].
    split; [reflexivity |]. split; [reflexivity |].
    split; [right; auto |].
    intros record [<- | [<- | [<- | []]]]; simpl; discriminate.
Qed.

End LoggedHandlerFacts.

(** ** Further runs on concrete inputs *)

Lemma write_failure_skips_promotion_witness :
  exists w',
    lambda_handler demo_environ VNone VNone
      (faulty false true false (store_holding (secret_of (Some "alice"))))
    = (inr {| statusCode := 500%Z;
              body := json_dumps
                        (VStr ("Error during secret rotation: "
                               ++ exn_str (AccessDenied "PutSecretValue"))) |},
       w')
    /\ w_calls w'
       = [GetSecretValue demo_arn;
          PutSecretValue demo_arn
            (json_dumps
               (new_secret_dict (VStr "alice")
                  "abcdefghijklmnopqrstuvwxyzABCDEF"
                  "GHIJKLMNOPQRSTUVWXYZ0123456789abcdefghijklmnopqrstuvwxyzABCDEFGH"
                  "IJKLMNOPQRSTUVWXYZ0123456789abcdefghijklmnopqrst"))
            ["AWSPENDING"]]
    /\ fs_store (w_store w') = store_holding (secret_of (Some "alice")).
Proof.
  destruct (write_failure_skips_promotion demo_environ VNone VNone demo_arn
              (faulty false true false
                 (store_holding (secret_of (Some "alice"))))
              {| SecretString := Some (small_dumps (secret_of (Some "alice")));
                 VersionId := "v1" |}
              (secret_of (Some "alice")) (VStr "alice")
              "abcdefghijklmnopqrstuvwxyzABCDEF"
              "GHIJKLMNOPQRSTUVWXYZ0123456789abcdefghijklmnopqrstuvwxyzABCDEFGH"
              "IJKLMNOPQRSTUVWXYZ0123456789abcdefghijklmnopqrst"
              144 (AccessDenied "PutSecretValue")
              (w_store (faulty false true false
                          (store_holding (secret_of (Some "alice"))))))
    as (w' & Hrun & Hcalls & Hstore).
  - vm_compute. reflexivity.
  - vm_compute. reflexivity.
  - exists (small_dumps (secret_of (Some "alice"))), 32, 96.
    repeat split; vm_compute; reflexivity.
  - vm_compute. reflexivity.
  - vm_compute. reflexivity.
  - exists w'. split; [exact Hrun |]. split; [exact Hcalls |].
    rewrite Hstore. reflexivity.
Defined.

Lemma promote_failure_reports_error_witness :
  exists w',
    lambda_handler demo_environ VNone VNone
      (faulty false false true (store_holding (secret_of (Some "alice"))))
    = (inr {| statusCode := 500%Z;
              body := json_dumps
                        (VStr ("Error during secret rotation: "
                               ++ exn_str
                                    (AccessDenied "UpdateSecretVersionStage"))) |},
       w')
    /\ stages_of "v1" (fs_store (w_store w')) = ["AWSCURRENT"]
    /\ stages_of "v2" (fs_store (w_store w')) = ["AWSPENDING"].
Proof.
  destruct (promote_failure_reports_error demo_environ VNone VNone demo_arn
              (faulty false false true
                 (store_holding (secret_of (Some "alice"))))
              {| SecretString := Some (small_dumps (secret_of (Some "alice")));
                 VersionId := "v1" |}
              (secret_of (Some "alice")) (VStr "alice")
              "abcdefghijklmnopqrstuvwxyzABCDEF"
              "GHIJKLMNOPQRSTUVWXYZ0123456789abcdefghijklmnopqrstuvwxyzABCDEFGH"
              "IJKLMNOPQRSTUVWXYZ0123456789abcdefghijklmnopqrst"
              144 {| put_VersionId := "v2" |}
              (AccessDenied "UpdateSecretVersionStage")
              (snd (put_secret_value demo_arn
                      (small_dumps
                         (new_secret_dict (VStr "alice")
                            "abcdefghijklmnopqrstuvwxyzABCDEF"
                            "GHIJKLMNOPQRSTUVWXYZ0123456789abcdefghijklmnopqrstuvwxyzABCDEFGH"
                            "IJKLMNOPQRSTUVWXYZ0123456789abcdefghijklmnopqrst"))
                      ["AWSPENDING"]
                      (w_store (faulty false false true
                                  (store_holding (secret_of (Some "alice")))))))
              (snd (put_secret_value demo_arn
                      (small_dumps
                         (new_secret_dict (VStr "alice")
                            "abcdefghijklmnopqrstuvwxyzABCDEF"
                            "GHIJKLMNOPQRSTUVWXYZ0123456789abcdefghijklmnopqrstuvwxyzABCDEFGH"
                            "IJKLMNOPQRSTUVWXYZ0123456789abcdefghijklmnopqrst"))
                      ["AWSPENDING"]
                      (w_store (faulty false false true
                                  (store_holding (secret_of (Some "alice"))))))))
    as (w' & Hrun & Hcalls & Hstore).
  - vm_compute. reflexivity.
  - vm_compute. reflexivity.
  - exists (small_dumps (secret_of (Some "alice"))), 32, 96.
    repeat split; vm_compute; reflexivity.
  - vm_compute. reflexivity.
  - vm_compute. reflexivity.
  - vm_compute. reflexivity.
  - exists w'. split; [exact Hrun |].
    rewrite Hstore. split; vm_compute; reflexivity.
Defined.

Lemma binary_secret_stops_rotation_witness :
  lambda_handler demo_environ VNone VNone
    (faulty true false false (store_holding (secret_of (Some "alice"))))
  = (inr {| statusCode := 500%Z;
            body := json_dumps
                      (VStr "Error during secret rotation: 'SecretString'") |},
     {| w_store := w_store (faulty true false false
                              (store_holding (secret_of (Some "alice"))));
        w_rng := 0;
        w_calls := [GetSecretValue demo_arn] |}).
Proof.
  apply (binary_secret_stops_rotation demo_environ VNone VNone demo_arn
           (faulty true false false (store_holding (secret_of (Some "alice"))))
           {| SecretString := None; VersionId := "v1" |});
    vm_compute; reflexivity.
Defined.

Lemma malformed_secret_stops_rotation_witness :
  lambda_handler demo_environ VNone VNone
    (world_of (store_holding_text "{not json"))
  = (inr {| statusCode := 500%Z;
            body := json_dumps
                      (VStr ("Error during secret rotation: "
                             ++ "Expecting value: line 1 column 1 (char 0)")) |},
     {| w_store := store_holding_text "{not json";
        w_rng := 0;
        w_calls := [GetSecretValue demo_arn] |}).
Proof.
  apply (malformed_secret_stops_rotation demo_environ VNone VNone demo_arn
           (world_of (store_holding_text "{not json"))
           {| SecretString := Some "{not json"; VersionId := "v1" |}
           "{not json"
           (Exn "JSONDecodeError" "Expecting value: line 1 column 1 (char 0)"));
    vm_compute; reflexivity.
Defined.

Lemma non_object_secret_stops_rotation_witness :
  lambda_handler demo_environ VNone VNone
    (world_of (store_holding (VList [VStr "alice"])))
  = (inr {| statusCode := 500%Z;
            body := json_dumps
                      (VStr ("Error during secret rotation: '"
                             ++ "list" ++ "' object has no attribute 'get'")) |},
     {| w_store := store_holding (VList [VStr "alice"]);
        w_rng := 144;
        w_calls := [GetSecretValue demo_arn] |}).
Proof.
  apply (non_object_secret_stops_rotation demo_environ VNone VNone demo_arn
           (world_of (store_holding (VList [VStr "alice"])))
           {| SecretString := Some (small_dumps (VList [VStr "alice"]));
              VersionId := "v1" |}
           (VList [VStr "alice"])
           "abcdefghijklmnopqrstuvwxyzABCDEF"
           "GHIJKLMNOPQRSTUVWXYZ0123456789abcdefghijklmnopqrstuvwxyzABCDEFGH"
           "IJKLMNOPQRSTUVWXYZ0123456789abcdefghijklmnopqrst").
  - vm_compute. reflexivity.
  - vm_compute. reflexivity.
  - exists (small_dumps (VList [VStr "alice"])), 32, 96.
    repeat split; vm_compute; reflexivity.
  - intros d. discriminate.
Defined.

Lemma rotation_succeeds_iff_witness :
  returned_status
    (fst (lambda_handler demo_environ VNone VNone
            (world_of (store_holding (secret_of (Some "alice"))))))
  = Some 200%Z
  /\ returned_status
       (fst (lambda_handler demo_environ VNone VNone (world_of empty_store)))
     = Some 500%Z.
Proof.
  split.
  - apply (rotation_succeeds_iff demo_environ VNone VNone demo_arn
             (world_of (store_holding (secret_of (Some "alice")))));
      [vm_compute; reflexivity | vm_compute; reflexivity |].
    exists {| SecretString := Some (small_dumps (secret_of (Some "alice")));
              VersionId := "v1" |},
      (fields_of (Some "alice")),
      "abcdefghijklmnopqrstuvwxyzABCDEF",
      "GHIJKLMNOPQRSTUVWXYZ0123456789abcdefghijklmnopqrstuvwxyzABCDEFGH",
      "IJKLMNOPQRSTUVWXYZ0123456789abcdefghijklmnopqrst",
      144, (VStr "alice").
    eexists _, _, _.
    split; [| split; [| split]].
    + exists (small_dumps (secret_of (Some "alice"))), 32, 96.
      repeat split; vm_compute; reflexivity.
    + vm_compute. reflexivity.
    + vm_compute. reflexivity.
    + vm_compute. reflexivity.
  - destruct (rotation_succeeds_iff demo_environ VNone VNone demo_arn
                (world_of empty_store)) as (_ & [H200 | H500]);
      [vm_compute; reflexivity | vm_compute; reflexivity | | exact H500].
    vm_compute in H200. discriminate H200.
Defined.

Lemma handler_raises_iff_unconfigured_witness :
  ((exists e, fst (lambda_handler ∅ VNone VNone (world_of empty_store)) = inl e)
   /\ snd (lambda_handler ∅ VNone VNone (world_of empty_store))
      = world_of empty_store)
  /\ ((exists e,
         fst (lambda_handler regionless_environ VNone VNone
                (world_of empty_store)) = inl e)
      /\ boto3_client "secretsmanager" regionless_environ = inl NoRegionError).
Proof.
  split.
  - destruct (handler_raises_iff_unconfigured ∅ VNone VNone
                (world_of empty_store)) as (Hiff & Hwhat).
    split.
    + apply Hiff. left. reflexivity.
    + apply (Hwhat (KeyError "SECRET_ARN")). vm_compute. reflexivity.
  - destruct (handler_raises_iff_unconfigured regionless_environ VNone VNone
                (world_of empty_store)) as (Hiff & Hwhat).
    split.
    + apply Hiff. right. exists NoRegionError. vm_compute. reflexivity.
    + apply (Hwhat NoRegionError). vm_compute. reflexivity.
Defined.

Lemma pending_write_has_four_keys_witness :
  exists (bundle : gmap string value),
    json_dumps
      (new_secret_dict (VStr "alice") "abcdefghijklmnopqrstuvwxyzABCDEF"
         "GHIJKLMNOPQRSTUVWXYZ0123456789abcdefghijklmnopqrstuvwxyzABCDEFGH"
         "IJKLMNOPQRSTUVWXYZ0123456789abcdefghijklmnopqrst")
    = json_dumps (VDict bundle)
    /\ dom bundle
       = ({["username"; "password"; "token"; "api_key"]} : gset string).
Proof.
  destruct (pending_write_has_four_keys demo_arn
              (world_of (store_holding (secret_of (Some "alice"))))
              (w_calls
                 (snd (lambda_handler_try demo_arn
                         (world_of
                            (store_holding (secret_of (Some "alice")))))))
              demo_arn
              (json_dumps
                 (new_secret_dict (VStr "alice")
                    "abcdefghijklmnopqrstuvwxyzABCDEF"
                    "GHIJKLMNOPQRSTUVWXYZ0123456789abcdefghijklmnopqrstuvwxyzABCDEFGH"
                    "IJKLMNOPQRSTUVWXYZ0123456789abcdefghijklmnopqrst"))
              ["AWSPENDING"])
    as (response & text & current & bundle & _ & _ & _ & Hpayload & Hdom).
  - reflexivity.
  - vm_compute. right. left. reflexivity.
  - exists bundle. split; assumption.
Defined.

Lemma logging_keeps_the_outcome_witness :
  exists rest,
    lambda_handler_logged ∅ (VStr "tick") VNone (world_of empty_store, [])
    = (inl (KeyError "SECRET_ARN"),
       (world_of empty_store,
        {| levelname := INFO;
           message := "Starting secret rotation for event: "
                      ++ json_dumps (VStr "tick") |} :: rest))
    /\ rest = [].
Proof.
  destruct (logging_keeps_the_outcome ∅ (VStr "tick") VNone
              (world_of empty_store) []) as (rest & Hrun & Hrest).
  exists rest. split; [exact Hrun | apply Hrest; reflexivity].
Defined.

Lemma success_log_witness :
  snd (snd (lambda_handler_logged demo_environ (VStr "tick") VNone
              (world_of (store_holding (secret_of (Some "alice"))), [])))
  = [{| levelname := INFO;
        message := "Starting secret rotation for event: "
                   ++ json_dumps (VStr "tick") |};
     {| levelname := INFO; message := "Secret validation passed" |};
     {| levelname := INFO;
        message := "Secret rotation completed successfully" |}].
Proof.
  eapply (success_log demo_environ (VStr "tick") VNone
            (world_of (store_holding (secret_of (Some "alice"))))
            _ [] _
            {| statusCode := 200%Z;
               body := json_dumps
                         (VStr "Secret rotation completed successfully") |});
    [| reflexivity].
  apply injective_projections; [vm_compute; reflexivity |].
  apply injective_projections; reflexivity.
Defined.

Lemma error_log_witness :
  exists (validated : list log_record),
    snd (snd (lambda_handler_logged demo_environ (VStr "tick") VNone
                (faulty false false true
                   (store_holding (secret_of (Some "alice"))), [])))
    = {| levelname := INFO;
         message := "Starting secret rotation for event: "
                    ++ json_dumps (VStr "tick") |}
      :: validated
      ++ [{| levelname := ERROR;
             message := "Error during secret rotation: "
                        ++ exn_str (AccessDenied "UpdateSecretVersionStage") |}]
    /\ validated
       = [{| levelname := INFO; message := "Secret validation passed" |}].
Proof.
  destruct (error_log demo_environ (VStr "tick") VNone
              (faulty false false true
                 (store_holding (secret_of (Some "alice"))))
              (snd (lambda_handler demo_environ (VStr "tick") VNone
                      (faulty false false true
                         (store_holding (secret_of (Some "alice"))))))
              []
              (snd (snd (lambda_handler_logged demo_environ (VStr "tick") VNone
                           (faulty false false true
                              (store_holding (secret_of (Some "alice"))),
                            []))))
              {| statusCode := 500%Z;
                 body := json_dumps
                           (VStr ("Error during secret rotation: "
                                  ++ exn_str
                                       (AccessDenied
                                          "UpdateSecretVersionStage"))) |})
    as (arn & e & validated & Henv & Htry & Hbody & Hlog & Hvalidated & _).
  - vm_compute. reflexivity.
  - reflexivity.
  - assert (Harn : arn = demo_arn)
      by (vm_compute in Henv; injection Henv as <-; reflexivity).
    subst arn.
    assert (He : e = AccessDenied "UpdateSecretVersionStage").
    { vm_compute in Htry. injection Htry as <-. reflexivity. }
    subst e. exists validated. split; [exact Hlog |].
    destruct Hvalidated as [(-> & _) | (-> & _)]; [| reflexivity].
    vm_compute in Hlog. discriminate Hlog.
Defined.
